(** * Shiksha streaming backend: session credentials and media-token grants

    A shallow embedding of the Django application under [backend/]:
    [core/settings.py], [streaming/models.py], [streaming/serializers.py],
    [streaming/tokens.py] and [streaming/views.py].

    Python values are embedded as follows.
    - [str] is [string]; its characters are read as code points below 256.
    - [int] is [Z] (Python integers do not wrap).
    - A raised exception is the left injection of [Exception + A].
    - The database tables are fields of one record, [Db.t], threaded
      through every view; the wall clock is a field of it.
    - A compact JWT is kept symbolic: the key it was signed with and its
      claims.  HS256 is treated as a perfect MAC. *)

From Stdlib Require Import ZArith String Ascii List Bool Lia DecimalString.
From stdpp Require Import base option list strings gmap sets relations sorting.
Import ListNotations.

Local Open Scope string_scope.
Local Open Scope Z_scope.

(** ** Python primitives *)

Inductive Exception : Type :=
| EnvironmentError (msg : string)
| OverflowError (msg : string)
| AttributeError (msg : string)
| TokenError (msg : string)
| OtherError (cls msg : string).

Definition Exc (A : Type) : Type := (Exception + A)%type.

Definition raise {A} (e : Exception) : Exc A := inl e.

#[global] Instance Exc_ret : MRet Exc := fun _ x => inr x.
#[global] Instance Exc_bind : MBind Exc := fun _ _ f m =>
  match m with
  | inl e => inl e
  | inr x => f x
  end.

(** [str(n)] for an [int]. *)
Definition str (n : Z) : string := NilZero.string_of_int (Z.to_int n).

(** [bool(s)] for a [str]: the empty string is falsy. *)
Definition truthy (s : string) : bool :=
  match s with
  | EmptyString => false
  | String _ _ => true
  end.

(** [bool(v)] for a value that is [None] or a [str]. *)
Definition truthy_opt (v : option string) : bool :=
  match v with
  | None => false
  | Some s => truthy s
  end.

(** [a or b] on strings. *)
Definition str_or (a b : string) : string := if truthy a then a else b.

(** [c.isspace()] for a code point below 256. *)
Definition isspace (c : ascii) : bool :=
  let n := N_of_ascii c in
  ((9 <=? n) && (n <=? 13) || (28 <=? n) && (n <=? 32)
   || (n =? 133) || (n =? 160))%N.

Fixpoint lstrip (s : string) : string :=
  match s with
  | EmptyString => EmptyString
  | String c s' => if isspace c then lstrip s' else s
  end.

Fixpoint string_rev_onto (s acc : string) : string :=
  match s with
  | EmptyString => acc
  | String c s' => string_rev_onto s' (String c acc)
  end.

Definition string_rev (s : string) : string := string_rev_onto s EmptyString.

Definition rstrip (s : string) : string := string_rev (lstrip (string_rev s)).

(** [s.strip()]. *)
Definition strip (s : string) : string := rstrip (lstrip s).

(** [sep.join(l)]. *)
Fixpoint join (sep : string) (l : list string) : string :=
  match l with
  | [] => EmptyString
  | [x] => x
  | x :: rest => x +:+ sep +:+ join sep rest
  end.

(** [len(s)]. *)
Definition len (s : string) : Z := Z.of_nat (String.length s).

Fixpoint string_forallb (p : ascii -> bool) (s : string) : bool :=
  match s with
  | EmptyString => true
  | String c s' => p c && string_forallb p s'
  end.

(** [datetime.timedelta(seconds=n)], kept as its number of seconds.  The
    constructor normalises to days and refuses more than 999999999 of
    them in either direction. *)
Definition timedelta (seconds : Z) : Exc Z :=
  let days := seconds / 86400 in
  if (-999999999 <=? days) && (days <=? 999999999) then mret seconds
  else raise (OverflowError "days; must have magnitude <= 999999999").

(** ** core/settings.py *)

Module settings.

(** The values read from the environment are the fields of [t]; the
    literal ones are the constants below it. *)
Record t : Type := mk {
  SECRET_KEY : string;
  LIVEKIT_URL : option string;
  LIVEKIT_API_KEY : option string;
  LIVEKIT_API_SECRET : option string;
  LIVEKIT_TOKEN_TTL_SECONDS : Z
}.

(** [SIMPLE_JWT] *)
Definition ACCESS_TOKEN_LIFETIME : Z := 60 * 60.
Definition REFRESH_TOKEN_LIFETIME : Z := 7 * 86400.
Definition ROTATE_REFRESH_TOKENS : bool := true.
Definition BLACKLIST_AFTER_ROTATION : bool := true.
Definition SIGNING_KEY (cfg : t) : string := SECRET_KEY cfg.

(** [getattr(settings, key, None)] for the three LiveKit names. *)
Definition getattr (cfg : t) (key : string) : option string :=
  if String.eqb key "LIVEKIT_URL" then LIVEKIT_URL cfg
  else if String.eqb key "LIVEKIT_API_KEY" then LIVEKIT_API_KEY cfg
  else if String.eqb key "LIVEKIT_API_SECRET" then LIVEKIT_API_SECRET cfg
  else None.

End settings.

(** ** streaming/models.py *)

Module UserRole.
Definition TEACHER : string := "teacher".
Definition STUDENT : string := "student".
End UserRole.

Module User.

Record t : Type := mk {
  id : Z;
  username : string;
  email : string;
  first_name : string;
  last_name : string;
  password : string;
  role : string;
  is_active : bool
}.

Definition has_role (self : t) (role_name : string) : bool :=
  String.eqb (role self) role_name.

Definition is_teacher (self : t) : bool :=
  String.eqb (role self) UserRole.TEACHER.

Definition is_student (self : t) : bool :=
  String.eqb (role self) UserRole.STUDENT.

(** [AbstractUser.get_full_name]. *)
Definition get_full_name (self : t) : string :=
  strip (first_name self +:+ " " +:+ last_name self).

End User.

Module Room.

Record t : Type := mk {
  id : Z;
  name : string;
  display_name : string;
  host : option Z;
  is_active : bool;
  created_at : Z;
  updated_at : Z
}.

End Room.

(** ** The LiveKit server SDK: [api.VideoGrants] and [api.AccessToken] *)

Module api.

Record VideoGrants : Type := mkVideoGrants {
  room_join : bool;
  room : string;
  can_publish : bool;
  can_publish_data : bool;
  can_subscribe : bool;
  can_publish_sources : list string;
  room_admin : bool;
  room_record : bool
}.

(** The builder handed to the signer.  What a [with_*] call has not set
    yet is [None]. *)
Record AccessToken : Type := mkAccessToken {
  api_key : option string;
  api_secret : option string;
  identity : option string;
  name : option string;
  ttl : option Z;
  grants : option VideoGrants
}.

Definition new (api_key api_secret : option string) : AccessToken :=
  mkAccessToken api_key api_secret None None None None.

Definition with_identity (v : string) (t : AccessToken) : AccessToken :=
  mkAccessToken (api_key t) (api_secret t) (Some v) (name t) (ttl t) (grants t).

Definition with_name (v : string) (t : AccessToken) : AccessToken :=
  mkAccessToken (api_key t) (api_secret t) (identity t) (Some v) (ttl t)
                (grants t).

Definition with_ttl (v : Z) (t : AccessToken) : AccessToken :=
  mkAccessToken (api_key t) (api_secret t) (identity t) (name t) (Some v)
                (grants t).

Definition with_grants (g : VideoGrants) (t : AccessToken) : AccessToken :=
  mkAccessToken (api_key t) (api_secret t) (identity t) (name t) (ttl t)
                (Some g).

(** [AccessToken.to_jwt] is the call into the external signing service:
    it yields the signed string or the exception the service raised. *)
Definition signer : Type := AccessToken -> Exc string.

End api.

(** ** streaming/tokens.py *)

Module tokens.

Definition LIVEKIT_KEYS : list string :=
  ["LIVEKIT_URL"; "LIVEKIT_API_KEY"; "LIVEKIT_API_SECRET"].

Definition missing_keys (cfg : settings.t) : list string :=
  List.filter (fun key => negb (truthy_opt (settings.getattr cfg key)))
              LIVEKIT_KEYS.

Definition _validate_livekit_config (cfg : settings.t) : Exc unit :=
  match missing_keys cfg with
  | [] => mret tt
  | missing =>
      raise (EnvironmentError
               ("Missing required LiveKit environment variables: "
                +:+ join ", " missing +:+ ". Check your .env file."))
  end.

(** The [api.VideoGrants(...)] expression of [generate_livekit_token]. *)
Definition video_grants (room_name : string) (is_teacher : bool)
  : api.VideoGrants :=
  {| api.room_join := true;
     api.room := room_name;
     api.can_publish := is_teacher;
     api.can_publish_data := is_teacher;
     api.can_subscribe := true;
     api.can_publish_sources :=
       if is_teacher then ["camera"; "microphone"; "screen_share"] else [];
     api.room_admin := is_teacher;
     api.room_record := is_teacher |}.

(** The result of a call together with the builders that were handed to
    the signer during it. *)
Definition Signed (A : Type) : Type := (Exc A * list api.AccessToken)%type.

(** The log line written after signing is an audit trail only and is left
    out. *)
Definition generate_livekit_token
  (to_jwt : api.signer) (cfg : settings.t) (room_name : string)
  (user : User.t) : Signed (string * bool) :=
  match _validate_livekit_config cfg with
  | inl e => (inl e, [])
  | inr _ =>
      let token := api.new (settings.LIVEKIT_API_KEY cfg)
                           (settings.LIVEKIT_API_SECRET cfg) in
      let token := api.with_identity (str (User.id user)) token in
      let token :=
        api.with_name (str_or (User.get_full_name user) (User.username user))
                      token in
      match timedelta (settings.LIVEKIT_TOKEN_TTL_SECONDS cfg) with
      | inl e => (inl e, [])
      | inr td =>
          let token := api.with_ttl td token in
          let is_teacher := User.is_teacher user in
          let grants := video_grants room_name is_teacher in
          let token := api.with_grants grants token in
          (jwt_string ← to_jwt token; mret (jwt_string, is_teacher), [token])
      end
  end.

End tokens.

(** ** Session credentials: rest_framework_simplejwt *)

Module jwt.

(** The claims of a session credential.  The three custom claims are the
    ones [CustomTokenObtainPairSerializer.get_token] adds. *)
Record Payload : Type := mkPayload {
  token_type : string;
  exp : Z;
  iat : Z;
  jti : N;
  user_id : Z;
  role : option string;
  username : option string;
  email : option string
}.

(** A string offered as a credential: either not a well-formed JWT at all
    (this includes the empty string), or the compact serialisation of
    [claims] signed with [key]. *)
Inductive Encoded : Type :=
| Opaque (s : string)
| Compact (key : string) (claims : Payload).

Definition truthy (t : Encoded) : bool :=
  match t with
  | Opaque s => truthy s
  | Compact _ _ => true
  end.

End jwt.

Module Db.

(** The tables and the clock.  [blacklisted] holds the [jti] of every
    [BlacklistedToken] row; [next_jti] and [next_room_id] stand for the
    fresh identifiers [uuid4] and the auto field produce.  The ledger of
    outstanding credentials that the blacklist app keeps as well is
    written on the way but read by no check, and is left out. *)
Record t : Type := mk {
  users : list User.t;
  rooms : list Room.t;
  blacklisted : gset N;
  next_jti : N;
  next_room_id : Z;
  now : Z
}.

Definition set_rooms (v : list Room.t) (db : t) : t :=
  mk (users db) v (blacklisted db) (next_jti db) (next_room_id db) (now db).

Definition set_blacklisted (v : gset N) (db : t) : t :=
  mk (users db) (rooms db) v (next_jti db) (next_room_id db) (now db).

Definition set_next_jti (v : N) (db : t) : t :=
  mk (users db) (rooms db) (blacklisted db) v (next_room_id db) (now db).

Definition set_next_room_id (v : Z) (db : t) : t :=
  mk (users db) (rooms db) (blacklisted db) (next_jti db) v (now db).

Definition set_now (v : Z) (db : t) : t :=
  mk (users db) (rooms db) (blacklisted db) (next_jti db) (next_room_id db) v.

(** [User.objects.get(id=i)]; [None] stands for [DoesNotExist]. *)
Definition get_user (db : t) (i : Z) : option User.t :=
  List.find (fun u => Z.eqb (User.id u) i) (users db).

Definition get_user_by_name (db : t) (n : string) : option User.t :=
  List.find (fun u => String.eqb (User.username u) n) (users db).

End Db.

(** Code that reads and writes the database and may raise.  What was
    written before an exception stays written: the project runs without
    [ATOMIC_REQUESTS]. *)
Definition Eff (A : Type) : Type := Db.t -> Exc A * Db.t.

#[global] Instance Eff_ret : MRet Eff := fun _ x db => (inr x, db).
#[global] Instance Eff_bind : MBind Eff := fun _ _ f m db =>
  match m db with
  | (inl e, db') => (inl e, db')
  | (inr x, db') => f x db'
  end.

Definition lift {A} (r : Exc A) : Eff A := fun db => (r, db).
Definition read {A} (f : Db.t -> A) : Eff A := fun db => (inr (f db), db).
Definition write (f : Db.t -> Db.t) : Eff unit := fun db => (inr tt, f db).

Module simplejwt.

(** [str(token)]: sign the claims with [SIGNING_KEY]. *)
Definition encode (cfg : settings.t) (claims : jwt.Payload) : jwt.Encoded :=
  jwt.Compact (settings.SIGNING_KEY cfg) claims.

(** [TokenBackend.decode]: check the signature, that the credential was
    not issued after the clock, and the expiry. *)
Definition decode (cfg : settings.t) (token : jwt.Encoded) : Eff jwt.Payload :=
  match token with
  | jwt.Opaque _ => lift (raise (TokenError "Token is invalid"))
  | jwt.Compact key claims =>
      if negb (String.eqb key (settings.SIGNING_KEY cfg))
      then lift (raise (TokenError "Token is invalid"))
      else
        now ← read Db.now;
        if now <? jwt.iat claims
        then lift (raise (TokenError "Token is invalid"))
        else if jwt.exp claims <=? now
        then lift (raise (TokenError "Token is expired"))
        else mret claims
  end.

Definition check_exp (claims : jwt.Payload) : Eff unit :=
  now ← read Db.now;
  if jwt.exp claims <=? now
  then lift (raise (TokenError "Token 'exp' claim has expired"))
  else mret tt.

Definition verify_token_type (expected : string) (claims : jwt.Payload)
  : Eff unit :=
  if String.eqb (jwt.token_type claims) expected then mret tt
  else lift (raise (TokenError "Token has wrong type")).

(** [BlacklistMixin.check_blacklist] *)
Definition check_blacklist (claims : jwt.Payload) : Eff unit :=
  listed ← read Db.blacklisted;
  if decide (jwt.jti claims ∈ listed)
  then lift (raise (TokenError "Token is blacklisted"))
  else mret tt.

(** [RefreshToken(token)]: decode, then [BlacklistMixin.verify]. *)
Definition RefreshToken (cfg : settings.t) (token : jwt.Encoded)
  : Eff jwt.Payload :=
  claims ← decode cfg token;
  _ ← check_blacklist claims;
  _ ← check_exp claims;
  _ ← verify_token_type "refresh" claims;
  mret claims.

(** [AccessToken(token)]: decode, then [Token.verify]; no blacklist. *)
Definition AccessToken (cfg : settings.t) (token : jwt.Encoded)
  : Eff jwt.Payload :=
  claims ← decode cfg token;
  _ ← check_exp claims;
  _ ← verify_token_type "access" claims;
  mret claims.

(** [uuid4().hex] *)
Definition fresh_jti : Eff N :=
  j ← read Db.next_jti;
  _ ← write (Db.set_next_jti (N.succ j));
  mret j.

(** [BlacklistMixin.blacklist] *)
Definition blacklist (claims : jwt.Payload) : Eff unit :=
  write (fun db =>
           Db.set_blacklisted ({[jwt.jti claims]} ∪ Db.blacklisted db) db).

(** [RefreshToken.access_token]: a new access credential that copies
    every claim but [token_type], [exp] and [jti]. *)
Definition access_token (claims : jwt.Payload) : Eff jwt.Payload :=
  now ← read Db.now;
  j ← fresh_jti;
  mret {| jwt.token_type := "access";
          jwt.exp := now + settings.ACCESS_TOKEN_LIFETIME;
          jwt.iat := jwt.iat claims;
          jwt.jti := j;
          jwt.user_id := jwt.user_id claims;
          jwt.role := jwt.role claims;
          jwt.username := jwt.username claims;
          jwt.email := jwt.email claims |}.

(** What Python code passes where a user is expected. *)
Inductive PyObject : Type :=
| ObjUser (u : User.t)
| ObjDict (d : jwt.Payload).

(** [getattr(obj, "id")]: a model instance has the attribute, a [dict]
    has not. *)
Definition getattr_id (obj : PyObject) : Exc Z :=
  match obj with
  | ObjUser u => mret (User.id u)
  | ObjDict _ => raise (AttributeError "'dict' object has no attribute 'id'")
  end.

(** [RefreshToken.for_user(user)]: read [USER_ID_FIELD] off [user], then
    mint. *)
Definition for_user (user : PyObject) : Eff jwt.Payload :=
  uid ← lift (getattr_id user);
  now ← read Db.now;
  j ← fresh_jti;
  mret {| jwt.token_type := "refresh";
          jwt.exp := now + settings.REFRESH_TOKEN_LIFETIME;
          jwt.iat := now;
          jwt.jti := j;
          jwt.user_id := uid;
          jwt.role := None;
          jwt.username := None;
          jwt.email := None |}.

(** [JWTAuthentication.authenticate] on the bearer credential: validate
    it as an access credential, then load its user. *)
Definition authenticate (cfg : settings.t) (token : jwt.Encoded)
  : Eff User.t :=
  claims ← AccessToken cfg token;
  db ← read (fun db => db);
  match Db.get_user db (jwt.user_id claims) with
  | None => lift (raise (OtherError "AuthenticationFailed" "User not found"))
  | Some user =>
      if User.is_active user then mret user
      else lift (raise (OtherError "AuthenticationFailed" "User is inactive"))
  end.

End simplejwt.

(** ** Request and response bodies *)

(** A JSON value.  [JTok] is a string leaf holding a session credential,
    kept in its symbolic form. *)
#[local] Unset Elimination Schemes.
Inductive JSON : Type :=
| JNull
| JBool (b : bool)
| JInt (n : Z)
| JStr (s : string)
| JTok (t : jwt.Encoded)
| JList (items : list JSON)
| JObj (fields : list (string * JSON)).
#[local] Set Elimination Schemes.

Module status.
Definition HTTP_200_OK : Z := 200.
Definition HTTP_201_CREATED : Z := 201.
Definition HTTP_400_BAD_REQUEST : Z := 400.
Definition HTTP_401_UNAUTHORIZED : Z := 401.
Definition HTTP_403_FORBIDDEN : Z := 403.
Definition HTTP_500_INTERNAL_SERVER_ERROR : Z := 500.
Definition HTTP_503_SERVICE_UNAVAILABLE : Z := 503.
End status.

Module Response.
Record t : Type := mk { data : JSON; status : Z }.
End Response.

Definition detail (msg : string) : JSON := JObj [("detail", JStr msg)].

(** ** streaming/serializers.py *)

Module serializers.

Definition dquote : string := String (ascii_of_nat 34) EmptyString.

Definition MSG_REQUIRED : string := "This field is required.".
Definition MSG_BLANK : string := "This field may not be blank.".
Definition MSG_NULL_CHARS : string := "Null characters are not allowed.".
Definition MSG_SLUG : string :=
  "Enter a valid " +:+ dquote +:+ "slug" +:+ dquote
  +:+ " consisting of letters, numbers, underscores or hyphens.".
Definition MSG_MAX_LENGTH (n : Z) : string :=
  "Ensure this field has no more than " +:+ str n +:+ " characters.".

(** One character of the class [[-a-zA-Z0-9_]]. *)
Definition slug_char (c : ascii) : bool :=
  let n := N_of_ascii c in
  ((n =? 45) || (n =? 95) || (48 <=? n) && (n <=? 57)
   || (65 <=? n) && (n <=? 90) || (97 <=? n) && (n <=? 122))%N.

Definition has_null_char (s : string) : bool :=
  negb (string_forallb (fun c => negb (N_of_ascii c =? 0)%N) s).

(** [CharField.run_validation] for a required field that is absent or a
    string: the blank test, the trimming of [to_internal_value], then
    every validator, each on the trimmed value. *)
Definition CharField_run_validation
  (trim_whitespace : bool) (validators : list (string -> list string))
  (data : option string) : list string + string :=
  match data with
  | None => inl [MSG_REQUIRED]
  | Some data =>
      if negb (truthy data) || (trim_whitespace && negb (truthy (strip data)))
      then inl [MSG_BLANK]
      else
        let value := if trim_whitespace then strip data else data in
        match List.concat (List.map (fun v => v value) validators) with
        | [] => inr value
        | errors => inl errors
        end
  end.

Definition MaxLengthValidator (n : Z) (value : string) : list string :=
  if len value >? n then [MSG_MAX_LENGTH n] else [].

Definition ProhibitNullCharactersValidator (value : string) : list string :=
  if has_null_char value then [MSG_NULL_CHARS] else [].

Definition SlugValidator (value : string) : list string :=
  if truthy value && string_forallb slug_char value then [] else [MSG_SLUG].

(** [serializers.SlugField(max_length=n)] *)
Definition SlugField (max_length : Z) (data : option string)
  : list string + string :=
  CharField_run_validation true
    [MaxLengthValidator max_length; ProhibitNullCharactersValidator;
     SlugValidator] data.

Definition field_errors (name : string) (errors : list string) : JSON :=
  JObj [(name, JList (List.map JStr errors))].

Module TokenRequestSerializer.

(** [Room.objects.filter(name=value, is_active=True).exists()] *)
Definition room_exists (db : Db.t) (value : string) : bool :=
  List.existsb (fun r => String.eqb (Room.name r) value && Room.is_active r)
               (Db.rooms db).

Definition validate_room (db : Db.t) (value : string) : list string + string :=
  if negb (room_exists db value)
  then inl ["Room '" +:+ value
            +:+ "' does not exist or is not currently active."]
  else inr value.

(** [is_valid()]: the field, then [validate_room]; the right injection is
    [validated_data["room"]], the left one is [errors]. *)
Definition is_valid (db : Db.t) (data_room : option string) : JSON + string :=
  match SlugField 100 data_room with
  | inl errors => inl (field_errors "room" errors)
  | inr value =>
      match validate_room db value with
      | inl errors => inl (field_errors "room" errors)
      | inr value => inr value
      end
  end.

End TokenRequestSerializer.

Module CustomTokenObtainPairSerializer.

(** What the framework makes of the two fields the parent serializer
    declares, [username] and [password]: the errors, or the two values. *)
Definition Fields : Type :=
  option string -> option string -> JSON + (string * string).

Definition get_token (user : User.t) : Eff jwt.Payload :=
  token ← simplejwt.for_user (simplejwt.ObjUser user);
  mret {| jwt.token_type := jwt.token_type token;
          jwt.exp := jwt.exp token;
          jwt.iat := jwt.iat token;
          jwt.jti := jwt.jti token;
          jwt.user_id := jwt.user_id token;
          jwt.role := Some (User.role user);
          jwt.username := Some (User.username user);
          jwt.email := Some (User.email user) |}.

(** [django.contrib.auth.authenticate]: the stored password is kept as
    the very string that verifies. *)
Definition django_authenticate (db : Db.t) (username password : string)
  : option User.t :=
  match Db.get_user_by_name db username with
  | Some user =>
      if String.eqb (User.password user) password && User.is_active user
      then Some user else None
  | None => None
  end.

(** [validate(attrs)] after the two fields passed; [None] stands for
    [AuthenticationFailed].  The update of [last_login] is left out. *)
Definition validate (cfg : settings.t) (username password : string)
  : Eff (option (list (string * JSON))) :=
  db ← read (fun db => db);
  match django_authenticate db username password with
  | None => mret None
  | Some user =>
      refresh ← get_token user;
      access ← simplejwt.access_token refresh;
      mret (Some [("refresh", JTok (simplejwt.encode cfg refresh));
                  ("access", JTok (simplejwt.encode cfg access));
                  ("role", JStr (User.role user));
                  ("username", JStr (User.username user))])
  end.

End CustomTokenObtainPairSerializer.

Module UserSerializer.

Definition data (user : User.t) : JSON :=
  JObj [("id", JInt (User.id user));
        ("username", JStr (User.username user));
        ("email", JStr (User.email user));
        ("role", JStr (User.role user));
        ("is_teacher", JBool (User.is_teacher user));
        ("is_student", JBool (User.is_student user))].

End UserSerializer.

Module RoomSerializer.

(** What the framework's [ModelSerializer] derives from [Meta]: the
    validation of a request body against the rows there are, giving the
    errors or [name], [display_name] and [is_active]; and the rendering
    of a row, given the row of its host. *)
Record t : Type := mk {
  is_valid : list Room.t -> JSON -> JSON + (string * string * bool);
  data : Room.t -> option User.t -> JSON
}.

End RoomSerializer.

End serializers.

(** ** streaming/views.py *)

Module views.

Import serializers.

(** A view: the response and the database it leaves.  A view behind
    [IsAuthenticated] takes [request.user] as an argument: the framework
    runs its body for an authenticated user only.  Throttling counts
    requests over real time and is not part of the embedding. *)
Definition View : Type := Db.t -> Response.t * Db.t.

(** [try: body except Exception: handler] around database code. *)
Definition try_except (body : Eff Response.t)
  (handler : Exception -> Response.t) : View :=
  fun db =>
    match body db with
    | (inr response, db') => (response, db')
    | (inl exc, db') => (handler exc, db')
    end.

(** [LoginView.post]: the fields of the serializer, then its [validate]. *)
Definition LoginView (fields : CustomTokenObtainPairSerializer.Fields)
  (cfg : settings.t) (username password : option string) : View :=
  fun db =>
    match fields username password with
    | inl errors => (Response.mk errors status.HTTP_400_BAD_REQUEST, db)
    | inr (username, password) =>
        match CustomTokenObtainPairSerializer.validate cfg username password db
        with
        | (inr (Some data), db') =>
            (Response.mk (JObj data) status.HTTP_200_OK, db')
        | (_, db') =>
            (Response.mk
               (detail "No active account found with the given credentials")
               status.HTTP_401_UNAUTHORIZED, db')
        end
    end.

Definition refresh_token_view (cfg : settings.t)
  (data_refresh : option jwt.Encoded) : View :=
  let refresh_token := data_refresh in
  match refresh_token with
  | None =>
      fun db => (Response.mk (detail "Refresh token is required.")
                             status.HTTP_400_BAD_REQUEST, db)
  | Some refresh_token =>
      if negb (jwt.truthy refresh_token)
      then fun db => (Response.mk (detail "Refresh token is required.")
                                  status.HTTP_400_BAD_REQUEST, db)
      else
        try_except
          (token ← simplejwt.RefreshToken cfg refresh_token;
           access ← simplejwt.access_token token;
           let data := [("access", JTok (simplejwt.encode cfg access))] in
           data ← (if settings.ROTATE_REFRESH_TOKENS
                   then
                     _ ← simplejwt.blacklist token;
                     new_refresh ←
                       simplejwt.for_user (simplejwt.ObjDict token);
                     mret (data ++ [("refresh",
                                     JTok (simplejwt.encode cfg new_refresh))])%list
                   else mret data);
           mret (Response.mk (JObj data) status.HTTP_200_OK))
          (fun exc =>
             Response.mk (detail "Invalid or expired refresh token.")
                         status.HTTP_401_UNAUTHORIZED)
  end.

Definition logout_view (cfg : settings.t) (user : User.t)
  (data_refresh : option jwt.Encoded) : View :=
  let refresh_token := data_refresh in
  match refresh_token with
  | None =>
      fun db => (Response.mk (detail "Refresh token is required to logout.")
                             status.HTTP_400_BAD_REQUEST, db)
  | Some refresh_token =>
      if negb (jwt.truthy refresh_token)
      then fun db =>
             (Response.mk (detail "Refresh token is required to logout.")
                          status.HTTP_400_BAD_REQUEST, db)
      else
        try_except
          (token ← simplejwt.RefreshToken cfg refresh_token;
           _ ← simplejwt.blacklist token;
           mret (Response.mk (detail "Successfully logged out.")
                             status.HTTP_200_OK))
          (fun exc =>
             Response.mk (detail "Invalid refresh token.")
                         status.HTTP_400_BAD_REQUEST)
  end.

Definition me_view (user : User.t) : View :=
  fun db => (Response.mk (UserSerializer.data user) status.HTTP_200_OK, db).

Module RoomListCreateView.

(** [Meta.ordering = ["-created_at"]] *)
Definition newer_first (a b : Room.t) : Prop :=
  Room.created_at b <= Room.created_at a.

#[global] Instance newer_first_dec : RelDecision newer_first :=
  fun a b => Z_le_dec (Room.created_at b) (Room.created_at a).

Definition get_queryset (db : Db.t) : list Room.t :=
  merge_sort newer_first (List.filter Room.is_active (Db.rooms db)).

Definition host_of (db : Db.t) (r : Room.t) : option User.t :=
  h ← Room.host r; Db.get_user db h.

Definition get (rs : RoomSerializer.t) (user : User.t) : View :=
  fun db =>
    (Response.mk
       (JList (List.map (fun r => RoomSerializer.data rs r (host_of db r))
                        (get_queryset db)))
       status.HTTP_200_OK, db).

(** [serializer.save(host=self.request.user)] *)
Definition perform_create (user : User.t) (v : string * string * bool)
  (db : Db.t) : Room.t * Db.t :=
  let '(name, display_name, is_active) := v in
  let room := Room.mk (Db.next_room_id db) name display_name
                      (Some (User.id user)) is_active (Db.now db) (Db.now db) in
  (room,
   Db.set_next_room_id (Db.next_room_id db + 1)
     (Db.set_rooms (Db.rooms db ++ [room])%list db)).

(** [IsTeacherOrReadOnly] lets only a teacher through to [post]. *)
Definition post (rs : RoomSerializer.t) (user : User.t) (body : JSON)
  : View :=
  fun db =>
    if negb (User.is_teacher user)
    then (Response.mk
            (detail "You do not have permission to perform this action.")
            status.HTTP_403_FORBIDDEN, db)
    else
      match RoomSerializer.is_valid rs (Db.rooms db) body with
      | inl errors => (Response.mk errors status.HTTP_400_BAD_REQUEST, db)
      | inr v =>
          let (room, db') := perform_create user v db in
          (Response.mk (RoomSerializer.data rs room (Some user))
                       status.HTTP_201_CREATED, db')
      end.

End RoomListCreateView.

(** The token endpoint.  Besides the response it gives the builders that
    were handed to the signer; it writes nothing to the database. *)
Definition get_livekit_token (to_jwt : api.signer) (cfg : settings.t)
  (user : User.t) (data_room : option string) (db : Db.t)
  : Response.t * list api.AccessToken :=
  match TokenRequestSerializer.is_valid db data_room with
  | inl errors => (Response.mk errors status.HTTP_400_BAD_REQUEST, [])
  | inr room_name =>
      match tokens.generate_livekit_token to_jwt cfg room_name user with
      | (inl (EnvironmentError _), calls) =>
          (Response.mk
             (detail
                "Streaming service is not configured. Contact an administrator.")
             status.HTTP_503_SERVICE_UNAVAILABLE, calls)
      | (inl _, calls) =>
          (Response.mk
             (detail "Could not generate streaming token. Please try again.")
             status.HTTP_500_INTERNAL_SERVER_ERROR, calls)
      | (inr (jwt_string, is_teacher), calls) =>
          (Response.mk
             (JObj [("livekit_url",
                     match settings.LIVEKIT_URL cfg with
                     | Some url => JStr url
                     | None => JNull
                     end);
                    ("token", JStr jwt_string);
                    ("room", JStr room_name);
                    ("is_teacher", JBool is_teacher)])
             status.HTTP_200_OK, calls)
      end
  end.

End views.

(** ** The endpoints as one system *)

Module system.

(** One request to an endpoint of [streaming/urls.py].  A request to an
    endpoint behind [IsAuthenticated] carries the user the bearer
    credential resolved to. *)
Inductive Call : Type :=
| Login (username password : option string)
| Refresh (data_refresh : option jwt.Encoded)
| Logout (user : User.t) (data_refresh : option jwt.Encoded)
| Me (user : User.t)
| RoomList (user : User.t)
| RoomCreate (user : User.t) (body : JSON)
| Token (user : User.t) (data_room : option string).

(** What the deployment fixes: the settings, the signer behind the SDK
    and the two serializers the framework derives. *)
Record Env : Type := mkEnv {
  cfg : settings.t;
  to_jwt : api.signer;
  login_fields : serializers.CustomTokenObtainPairSerializer.Fields;
  rooms_serializer : serializers.RoomSerializer.t
}.

Definition handle (env : Env) (c : Call) : views.View :=
  match c with
  | Login username password =>
      views.LoginView (login_fields env) (cfg env) username password
  | Refresh data_refresh => views.refresh_token_view (cfg env) data_refresh
  | Logout user data_refresh => views.logout_view (cfg env) user data_refresh
  | Me user => views.me_view user
  | RoomList user => views.RoomListCreateView.get (rooms_serializer env) user
  | RoomCreate user body =>
      views.RoomListCreateView.post (rooms_serializer env) user body
  | Token user data_room =>
      fun db =>
        (fst (views.get_livekit_token (to_jwt env) (cfg env) user data_room db),
         db)
  end.

(** What can happen between two requests: another request is served,
    time passes, or an administrator edits users and rooms through the
    admin site of [streaming/admin.py]. *)
Inductive step (env : Env) : Db.t -> Db.t -> Prop :=
| step_call (c : Call) (db : Db.t) :
    step env db (snd (handle env c db))
| step_tick (dt : Z) (db : Db.t) :
    0 <= dt -> step env db (Db.set_now (Db.now db + dt) db)
| step_admin (users : list User.t) (rooms : list Room.t) (db : Db.t) :
    step env db
         (Db.mk users rooms (Db.blacklisted db) (Db.next_jti db)
                (Db.next_room_id db) (Db.now db)).

Definition later (env : Env) : Db.t -> Db.t -> Prop := rtc (step env).

End system.

(** ** Reading a response body *)

(** [mentions v j]: some string leaf of [j] is exactly [v]. *)
Fixpoint mentions (v : string) (j : JSON) : bool :=
  match j with
  | JStr s => String.eqb s v
  | JList items => List.existsb (mentions v) items
  | JObj fields => List.existsb (fun '(_, x) => mentions v x) fields
  | _ => false
  end.

(** The answer the refresh endpoint gives to a credential it rejects. *)
Definition INVALID_CREDENTIAL : Response.t :=
  Response.mk (detail "Invalid or expired refresh token.")
              status.HTTP_401_UNAUTHORIZED.

(** [valid_refresh cfg db r claims]: [RefreshToken(r)] raises nothing
    and reads [claims]. *)
Definition valid_refresh (cfg : settings.t) (db : Db.t) (r : jwt.Encoded)
  (claims : jwt.Payload) : Prop :=
  fst (simplejwt.RefreshToken cfg r db) = inr claims.

(** The same user with another role. *)
Definition with_role (role : string) (u : User.t) : User.t :=
  User.mk (User.id u) (User.username u) (User.email u) (User.first_name u)
          (User.last_name u) (User.password u) role (User.is_active u).

(** A configuration value counts as absent when it is unset or empty. *)
Definition absent (v : option string) : Prop := truthy_opt v = false.

(** ** Vocabulary of the properties *)

(** What [RefreshToken(r)] checks, said at once. *)
Definition refresh_conditions (cfg : settings.t) (db : Db.t)
  (r : jwt.Encoded) (claims : jwt.Payload) : Prop :=
  r = jwt.Compact (settings.SIGNING_KEY cfg) claims
  /\ Db.now db < jwt.exp claims
  /\ (jwt.jti claims ∉ Db.blacklisted db)
  /\ jwt.token_type claims = "refresh"
  /\ jwt.iat claims <= Db.now db.

(** What [JWTAuthentication] checks on a bearer credential [a] before it
    lets user [u] in. *)
Definition access_conditions (cfg : settings.t) (db : Db.t)
  (a : jwt.Encoded) (claims : jwt.Payload) (u : User.t) : Prop :=
  a = jwt.Compact (settings.SIGNING_KEY cfg) claims
  /\ Db.now db < jwt.exp claims
  /\ jwt.token_type claims = "access"
  /\ Db.get_user db (jwt.user_id claims) = Some u
  /\ User.is_active u = true
  /\ jwt.iat claims <= Db.now db.

(** The builder [generate_livekit_token] hands to the signer. *)
Definition built (cfg : settings.t) (room_name : string) (user : User.t)
  : api.AccessToken :=
  {| api.api_key := settings.LIVEKIT_API_KEY cfg;
     api.api_secret := settings.LIVEKIT_API_SECRET cfg;
     api.identity := Some (str (User.id user));
     api.name :=
       Some (str_or (User.get_full_name user) (User.username user));
     api.ttl := Some (settings.LIVEKIT_TOKEN_TTL_SECONDS cfg);
     api.grants :=
       Some (tokens.video_grants room_name (User.is_teacher user)) |}.

(** [names_active_room db s]: the Room Directory holds an active room
    whose name is [s] as the request field reads it, that is, without
    the whitespace around it. *)
Definition names_active_room (db : Db.t) (s : string) : Prop :=
  exists r, r ∈ Db.rooms db /\ Room.is_active r = true
            /\ Room.name r = strip s.

Definition raises {A : Type} (r : Exc A) : bool :=
  match r with
  | inl _ => true
  | inr _ => false
  end.

(** Two configurations that may differ in the API key, the API secret
    and the TTL, but neither in whether key and secret are there nor in
    whether the TTL is one [timedelta] takes. *)
Definition same_but_signing_secrets (c c' : settings.t) : Prop :=
  settings.SECRET_KEY c = settings.SECRET_KEY c'
  /\ settings.LIVEKIT_URL c = settings.LIVEKIT_URL c'
  /\ truthy_opt (settings.LIVEKIT_API_KEY c)
     = truthy_opt (settings.LIVEKIT_API_KEY c')
  /\ truthy_opt (settings.LIVEKIT_API_SECRET c)
     = truthy_opt (settings.LIVEKIT_API_SECRET c')
  /\ raises (timedelta (settings.LIVEKIT_TOKEN_TTL_SECONDS c))
     = raises (timedelta (settings.LIVEKIT_TOKEN_TTL_SECONDS c')).

(** ** A small deployment to run the code on *)

Module sample.

Definition cfg : settings.t :=
  settings.mk "django-secret" (Some "wss://live.example.org")
              (Some "APIkey") (Some "APIsecret") 3600.

(** The same deployment before [LIVEKIT_URL] was put in [.env]. *)
Definition cfg_no_url : settings.t :=
  settings.mk "django-secret" None (Some "APIkey") (Some "APIsecret") 3600.

(** The same deployment after key, secret and TTL were replaced. *)
Definition cfg_rekeyed : settings.t :=
  settings.mk "django-secret" (Some "wss://live.example.org")
              (Some "APIkey2") (Some "another secret") 900.

Definition to_jwt : api.signer := fun _ => inr "signed.media.token".

Definition login_fields : serializers.CustomTokenObtainPairSerializer.Fields :=
  fun username password =>
    match username, password with
    | Some u, Some p => inr (u, p)
    | _, _ => inl (JObj [])
    end.

Definition rooms_serializer : serializers.RoomSerializer.t :=
  serializers.RoomSerializer.mk
    (fun _ _ => inl (JObj []))
    (fun r _ => JObj [("name", JStr (Room.name r))]).

Definition env : system.Env :=
  system.mkEnv cfg to_jwt login_fields rooms_serializer.

Definition env_rekeyed : system.Env :=
  system.mkEnv cfg_rekeyed to_jwt login_fields rooms_serializer.

Definition asha : User.t :=
  User.mk 1 "asha" "asha@example.org" "Asha" "Rao" "pw-asha" "teacher" true.

Definition bilal : User.t :=
  User.mk 2 "bilal" "bilal@example.org" EmptyString EmptyString "pw-bilal"
          "student" true.

Definition carol : User.t :=
  User.mk 3 "carol" "carol@example.org" EmptyString EmptyString "pw-carol"
          "admin" true.

Definition math : Room.t :=
  Room.mk 1 "math-101" "Mathematics" (Some 1) true 10 10.

Definition db : Db.t := Db.mk [asha; bilal; carol] [math] ∅ 10%N 2 100.

(** A refresh credential of [bilal] and the access credential that was
    minted with it. *)
Definition bilal_refresh_claims : jwt.Payload :=
  jwt.mkPayload "refresh" 604850 50 4%N 2 (Some "student") (Some "bilal")
                (Some "bilal@example.org").

Definition bilal_refresh : jwt.Encoded :=
  jwt.Compact "django-secret" bilal_refresh_claims.

Definition bilal_access_claims : jwt.Payload :=
  jwt.mkPayload "access" 3650 50 5%N 2 (Some "student") (Some "bilal")
                (Some "bilal@example.org").

Definition bilal_access : jwt.Encoded :=
  jwt.Compact "django-secret" bilal_access_claims.

End sample.

(** ** streaming/permissions.py *)

Module permissions.

(** [request.user]: [None], the framework's [AnonymousUser], or a row of
    the user table. *)
Inductive RequestUser : Type :=
| NoUser
| AnonymousUser
| Authenticated (u : User.t).

Record Request : Type := mkRequest {
  user : RequestUser;
  method : string
}.

(** The object a detail view hands to [has_object_permission]. *)
Inductive Obj : Type :=
| ObjRoom (r : Room.t)
| ObjOther.

(** [request.user and request.user.is_authenticated]: [None] is falsy and
    [AnonymousUser.is_authenticated] is [False]. *)
Definition user_and_authenticated (request : Request) : bool :=
  match user request with
  | NoUser => false
  | AnonymousUser => false
  | Authenticated _ => true
  end.

(** [request.user.attr], read after the test above let the user through. *)
Definition user_attr (attr : User.t -> bool) (request : Request) : bool :=
  match user request with
  | Authenticated u => attr u
  | _ => false
  end.

Module IsTeacher.
Definition message : string :=
  "Only teachers are permitted to perform this action.".
Definition has_permission (request : Request) : bool :=
  user_and_authenticated request && user_attr User.is_teacher request.
End IsTeacher.

Module IsStudent.
Definition message : string :=
  "Only students are permitted to perform this action.".
Definition has_permission (request : Request) : bool :=
  user_and_authenticated request && user_attr User.is_student request.
End IsStudent.

Module IsRoomHost.
Definition message : string := "You are not the host of this room.".

(** [obj.host == request.user]: two model instances are equal when their
    primary keys are; a room without host has [None] there. *)
Definition host_eq (r : Room.t) (request : Request) : bool :=
  match Room.host r, user request with
  | Some h, Authenticated u => Z.eqb h (User.id u)
  | _, _ => false
  end.

Definition has_object_permission (request : Request) (obj : Obj) : bool :=
  if negb (user_and_authenticated request) then false
  else
    match obj with
    | ObjRoom r => host_eq r request
    | ObjOther => false
    end.
End IsRoomHost.

Module IsTeacherOrReadOnly.
Definition SAFE_METHODS : list string := ["GET"; "HEAD"; "OPTIONS"].

Definition has_permission (request : Request) : bool :=
  if negb (user_and_authenticated request) then false
  else if List.existsb (String.eqb (method request)) SAFE_METHODS then true
  else user_attr User.is_teacher request.
End IsTeacherOrReadOnly.

End permissions.

(** ** core/settings.py: what is computed from the environment *)

(** [s.split(sep)] for a separator of one character. *)
Fixpoint split (sep : ascii) (s : string) : list string :=
  match s with
  | EmptyString => [EmptyString]
  | String c s' =>
      if Ascii.eqb c sep then EmptyString :: split sep s'
      else
        match split sep s' with
        | piece :: pieces => String c piece :: pieces
        | [] => [String c EmptyString]
        end
  end.

Module environ.

(** [os.environ] once [load_dotenv()] has run. *)
Definition t : Type := string -> option string.

(** [os.getenv(key, default)] *)
Definition getenv (environ : t) (key default : string) : string :=
  match environ key with
  | Some v => v
  | None => default
  end.

Definition comma : ascii := ascii_of_nat 44.

Definition DEBUG (environ : t) : bool :=
  String.eqb (getenv environ "DEBUG" "True") "True".

Definition ALLOWED_HOSTS (environ : t) : list string :=
  split comma (getenv environ "ALLOWED_HOSTS" "localhost,127.0.0.1").

Definition CORS_ALLOWED_ORIGINS (environ : t) : list string :=
  split comma
        (getenv environ "CORS_ALLOWED_ORIGINS"
                "http://localhost:5173,http://127.0.0.1:5173").

End environ.

(** ** More vocabulary *)

(** [field k j]: the value under key [k] of the JSON object [j]. *)
Definition field (k : string) (j : JSON) : option JSON :=
  match j with
  | JObj fields =>
      option_map snd (List.find (fun kv => String.eqb (fst kv) k) fields)
  | _ => None
  end.

(** The body of the two failures of the token endpoint that are not the
    client's. *)
Definition NOT_CONFIGURED : JSON :=
  detail "Streaming service is not configured. Contact an administrator.".

Definition COULD_NOT_GENERATE : JSON :=
  detail "Could not generate streaming token. Please try again.".

(** [is_slug s]: [s] is not empty and made of letters, digits, hyphens and
    underscores. *)
Definition is_slug (s : string) : Prop :=
  s <> EmptyString /\ string_forallb serializers.slug_char s = true.


(** The claims [c] with the three claims that
    [CustomTokenObtainPairSerializer.get_token] adds set to other values,
    and every other claim as it is. *)
Definition with_custom_claims (role username email : option string)
  (c : jwt.Payload) : jwt.Payload :=
  jwt.mkPayload (jwt.token_type c) (jwt.exp c) (jwt.iat c) (jwt.jti c)
                (jwt.user_id c) role username email.

(** The full name of [AbstractUser.get_full_name] before it is trimmed. *)
Definition untrimmed_full_name (u : User.t) : string :=
  User.first_name u +:+ " " +:+ User.last_name u.

(** ** More of the small deployment *)

Module sample_more.

(** A TTL of a thousand million days. *)
Definition cfg_long_ttl : settings.t :=
  settings.mk "django-secret" (Some "wss://live.example.org")
              (Some "APIkey") (Some "APIsecret") 86400000000000.

Definition to_jwt_value_error : api.signer :=
  fun _ => inl (OtherError "ValueError" "secret APIsecret is too short").

Definition to_jwt_os_error : api.signer :=
  fun _ => inl (EnvironmentError "connection refused").

(** The access credential of [bilal] with the role claim rewritten. *)
Definition bilal_access_as_teacher : jwt.Payload :=
  jwt.mkPayload "access" 3650 50 5%N 2 (Some "teacher") (Some "asha")
                (Some "asha@example.org").

(** A refresh credential of [bilal] that ran out before the clock of
    [sample.db]. *)
Definition bilal_refresh_expired : jwt.Encoded :=
  jwt.Compact "django-secret"
    (jwt.mkPayload "refresh" 90 50 3%N 2 (Some "student") (Some "bilal")
                   (Some "bilal@example.org")).

(** An environment that sets the hosts and nothing else. *)
Definition environ_hosts : environ.t :=
  fun key =>
    if String.eqb key "ALLOWED_HOSTS" then Some "api.example.org, example.org"
    else None.

End sample_more.

(** A room serializer that reads one fixed body. *)
Module sample_rooms.

Definition serializer : serializers.RoomSerializer.t :=
  serializers.RoomSerializer.mk
    (fun rooms body =>
       match body with
       | JObj [("name", JStr n); ("display_name", JStr d)] =>
           if List.existsb (fun r => String.eqb (Room.name r) n) rooms
           then inl (JObj [("name",
                            JList [JStr "room with this name already exists."])])
           else inr (n, d, true)
       | _ => inl (JObj [])
       end)
    (fun r host =>
       JObj [("name", JStr (Room.name r));
             ("host_username",
              match host with
              | Some h => JStr (User.username h)
              | None => JNull
              end)]).

Definition physics_body : JSON :=
  JObj [("name", JStr "physics-7"); ("display_name", JStr "Physics")].

End sample_rooms.

(** * Properties *)

Ltac eff :=
  cbv [mbind mret Eff_bind Eff_ret Exc_bind Exc_ret lift read write raise].

(** ** How the credential checks run *)

Section SessionCredentials.

Variable cfg : settings.t.

Lemma RefreshToken_cases (r : jwt.Encoded) (db : Db.t) :
  (exists e, simplejwt.RefreshToken cfg r db = (inl e, db)
             /\ forall claims, ~ refresh_conditions cfg db r claims)
  \/ (exists claims, simplejwt.RefreshToken cfg r db = (inr claims, db)
                     /\ refresh_conditions cfg db r claims).
Proof.
  unfold refresh_conditions, simplejwt.RefreshToken, simplejwt.decode,
    simplejwt.check_blacklist, simplejwt.check_exp,
    simplejwt.verify_token_type.
  destruct r as [s | key c]; eff; simpl.
  { left. eexists. split; [reflexivity |]. intros ? [? _]. discriminate. }
  destruct (String.eqb_spec key (settings.SIGNING_KEY cfg)) as [-> | Hkey];
    simpl.
  2:{ left. eexists. split; [reflexivity |]. intros ? [E _].
      injection E as -> _. contradiction. }
  destruct (Z.ltb_spec (Db.now db) (jwt.iat c)) as [Hearly | Hiat]; simpl.
  { left. eexists. split; [reflexivity |]. intros ? (E & _ & _ & _ & ?).
    injection E as <-. lia. }
  destruct (Z.leb_spec (jwt.exp c) (Db.now db)) as [Hle | Hlt]; simpl.
  { left. eexists. split; [reflexivity |]. intros ? (E & ? & _).
    injection E as <-. lia. }
  destruct (decide (jwt.jti c ∈ Db.blacklisted db)) as [Hin | Hout]; simpl.
  { left. eexists. split; [reflexivity |]. intros ? (E & _ & ? & _).
    injection E as <-. contradiction. }
  pose proof (proj2 (Z.leb_gt _ _) Hlt) as Hexp.
  destruct (String.eqb_spec (jwt.token_type c) "refresh") as [Htype | Htype];
    simpl; rewrite Hexp.
  - right. exists c. auto 10.
  - left. eexists. split; [reflexivity |]. intros ? (E & _ & _ & ? & _).
    injection E as <-. contradiction.
Qed.

Lemma valid_refresh_iff (db : Db.t) (r : jwt.Encoded) (claims : jwt.Payload) :
  valid_refresh cfg db r claims <-> refresh_conditions cfg db r claims.
Proof.
  unfold valid_refresh.
  destruct (RefreshToken_cases r db) as [(e & -> & Hn) | (c & -> & Hc)]; simpl.
  - split; [discriminate | intros H; destruct (Hn _ H)].
  - split.
    + intros E. injection E as <-. exact Hc.
    + intros (E & _). destruct Hc as (E' & _). rewrite E in E'.
      injection E' as ->. reflexivity.
Qed.

Lemma valid_refresh_run (db : Db.t) (r : jwt.Encoded) (claims : jwt.Payload) :
  valid_refresh cfg db r claims ->
  simplejwt.RefreshToken cfg r db = (inr claims, db).
Proof.
  unfold valid_refresh.
  destruct (RefreshToken_cases r db) as [(e & -> & _) | (c & -> & _)]; simpl;
    congruence.
Qed.

Lemma run_valid_refresh (db : Db.t) (r : jwt.Encoded) (claims : jwt.Payload) :
  simplejwt.RefreshToken cfg r db = (inr claims, db) ->
  valid_refresh cfg db r claims.
Proof. unfold valid_refresh. intros ->. reflexivity. Qed.

Lemma blacklisted_rejected (db : Db.t) (r : jwt.Encoded)
  (claims : jwt.Payload) :
  r = jwt.Compact (settings.SIGNING_KEY cfg) claims ->
  jwt.jti claims ∈ Db.blacklisted db ->
  exists e, simplejwt.RefreshToken cfg r db = (inl e, db).
Proof.
  intros Hr Hin.
  destruct (RefreshToken_cases r db) as [(e & E & _) | (c & _ & Hc)]; [eauto |].
  destruct Hc as (E & _ & Hn & _). rewrite Hr in E. injection E as <-.
  contradiction.
Qed.

(** What [RefreshToken(r)] raises on a well-signed credential of the past
    whose identifier is on the blacklist: the expiry is looked at first. *)
Lemma blacklisted_raises (db : Db.t) (r : jwt.Encoded)
  (claims : jwt.Payload) :
  r = jwt.Compact (settings.SIGNING_KEY cfg) claims ->
  jwt.jti claims ∈ Db.blacklisted db ->
  jwt.iat claims <= Db.now db ->
  simplejwt.RefreshToken cfg r db
  = (inl (TokenError (if jwt.exp claims <=? Db.now db
                      then "Token is expired" else "Token is blacklisted")),
     db).
Proof.
  intros -> Hin Hiat.
  unfold simplejwt.RefreshToken, simplejwt.decode,
    simplejwt.check_blacklist, simplejwt.check_exp,
    simplejwt.verify_token_type.
  eff; simpl. rewrite String.eqb_refl. simpl.
  destruct (Z.ltb_spec (Db.now db) (jwt.iat claims)) as [Hearly | _];
    [lia |]. simpl.
  destruct (jwt.exp claims <=? Db.now db); simpl; [reflexivity |].
  destruct (decide (jwt.jti claims ∈ Db.blacklisted db)); simpl;
    [reflexivity | contradiction].
Qed.

(** The one path of [refresh_token_view] a valid credential takes: it is
    blacklisted, [for_user] raises on the claims it is given, and the
    handler answers 401. *)
Lemma refresh_token_view_valid (db : Db.t) (r : jwt.Encoded)
  (claims : jwt.Payload) :
  valid_refresh cfg db r claims ->
  views.refresh_token_view cfg (Some r) db =
    (INVALID_CREDENTIAL,
     Db.set_blacklisted ({[jwt.jti claims]} ∪ Db.blacklisted db)
       (Db.set_next_jti (N.succ (Db.next_jti db)) db)).
Proof.
  intros Hv. pose proof (valid_refresh_run _ _ _ Hv) as Hrun.
  apply valid_refresh_iff in Hv. destruct Hv as (-> & _).
  unfold views.refresh_token_view, views.try_except. simpl.
  cbv [mbind Eff_bind]. rewrite Hrun. reflexivity.
Qed.

Lemma logout_view_valid (user : User.t) (db : Db.t) (r : jwt.Encoded)
  (claims : jwt.Payload) :
  valid_refresh cfg db r claims ->
  views.logout_view cfg user (Some r) db =
    (Response.mk (detail "Successfully logged out.") status.HTTP_200_OK,
     Db.set_blacklisted ({[jwt.jti claims]} ∪ Db.blacklisted db) db).
Proof.
  intros Hv. pose proof (valid_refresh_run _ _ _ Hv) as Hrun.
  apply valid_refresh_iff in Hv. destruct Hv as (-> & _).
  unfold views.logout_view, views.try_except. simpl.
  cbv [mbind Eff_bind]. rewrite Hrun. reflexivity.
Qed.

Lemma refresh_token_view_rejects (db : Db.t) (r : jwt.Encoded)
  (e : Exception) :
  jwt.truthy r = true ->
  simplejwt.RefreshToken cfg r db = (inl e, db) ->
  views.refresh_token_view cfg (Some r) db = (INVALID_CREDENTIAL, db).
Proof.
  intros Ht Hrun. unfold views.refresh_token_view, views.try_except.
  rewrite Ht. simpl. cbv [mbind Eff_bind]. rewrite Hrun. reflexivity.
Qed.

Lemma logout_view_rejects (user : User.t) (db : Db.t) (r : jwt.Encoded)
  (e : Exception) :
  jwt.truthy r = true ->
  simplejwt.RefreshToken cfg r db = (inl e, db) ->
  views.logout_view cfg user (Some r) db =
    (Response.mk (detail "Invalid refresh token.") status.HTTP_400_BAD_REQUEST,
     db).
Proof.
  intros Ht Hrun. unfold views.logout_view, views.try_except.
  rewrite Ht. simpl. cbv [mbind Eff_bind]. rewrite Hrun. reflexivity.
Qed.

(** Each of the two views either leaves the database alone or does what
    it does to a valid credential. *)
Lemma refresh_token_view_frame (data : option jwt.Encoded) (db : Db.t) :
  (snd (views.refresh_token_view cfg data db) = db
   /\ Response.status (fst (views.refresh_token_view cfg data db))
      <> status.HTTP_200_OK)
  \/ exists r claims,
       data = Some r /\ valid_refresh cfg db r claims.
Proof.
  destruct data as [r |]; [| left; split; [reflexivity | discriminate]].
  destruct (jwt.truthy r) eqn:Ht.
  2:{ left. unfold views.refresh_token_view. rewrite Ht.
      split; [reflexivity | discriminate]. }
  destruct (RefreshToken_cases r db) as [(e & E & _) | (c & E & _)].
  - left. rewrite (refresh_token_view_rejects _ _ _ Ht E).
    split; [reflexivity | discriminate].
  - right. exists r, c. split; [reflexivity |]. exact (run_valid_refresh _ _ _ E).
Qed.

Lemma logout_view_frame (caller : User.t) (data : option jwt.Encoded)
  (db : Db.t) :
  snd (views.logout_view cfg caller data db) = db
  \/ exists r claims,
       data = Some r /\ valid_refresh cfg db r claims.
Proof.
  destruct data as [r |]; [| left; reflexivity].
  destruct (jwt.truthy r) eqn:Ht.
  2:{ left. unfold views.logout_view. rewrite Ht. reflexivity. }
  destruct (RefreshToken_cases r db) as [(e & E & _) | (c & E & _)].
  - left. rewrite (logout_view_rejects _ _ _ _ Ht E). reflexivity.
  - right. exists r, c. split; [reflexivity |]. exact (run_valid_refresh _ _ _ E).
Qed.

End SessionCredentials.

(** ** The blacklist only grows *)

Section Later.

Variable env : system.Env.

Lemma refresh_token_view_blacklist (data : option jwt.Encoded) (db : Db.t) :
  Db.blacklisted db
  ⊆ Db.blacklisted (snd (views.refresh_token_view (system.cfg env) data db)).
Proof.
  destruct (refresh_token_view_frame (system.cfg env) data db)
    as [[-> _] | (r & c & -> & Hv)]; [reflexivity |].
  rewrite (refresh_token_view_valid _ _ _ _ Hv). simpl.
  apply union_subseteq_r.
Qed.

Lemma logout_view_blacklist (user : User.t) (data : option jwt.Encoded)
  (db : Db.t) :
  Db.blacklisted db
  ⊆ Db.blacklisted (snd (views.logout_view (system.cfg env) user data db)).
Proof.
  destruct (logout_view_frame (system.cfg env) user data db)
    as [-> | (r & c & -> & Hv)]; [reflexivity |].
  rewrite (logout_view_valid _ _ _ _ _ Hv). simpl.
  apply union_subseteq_r.
Qed.

Lemma LoginView_blacklist (username password : option string) (db : Db.t) :
  Db.blacklisted
    (snd (views.LoginView (system.login_fields env) (system.cfg env)
            username password db))
  = Db.blacklisted db.
Proof.
  unfold views.LoginView.
  destruct (system.login_fields env username password) as [errors | [u p]];
    [reflexivity |].
  unfold serializers.CustomTokenObtainPairSerializer.validate. eff.
  destruct (serializers.CustomTokenObtainPairSerializer.django_authenticate
              db u p); reflexivity.
Qed.

Lemma handle_blacklist (c : system.Call) (db : Db.t) :
  Db.blacklisted db ⊆ Db.blacklisted (snd (system.handle env c db)).
Proof.
  destruct c; simpl.
  - rewrite LoginView_blacklist. reflexivity.
  - apply refresh_token_view_blacklist.
  - apply logout_view_blacklist.
  - reflexivity.
  - reflexivity.
  - unfold views.RoomListCreateView.post.
    destruct (negb (User.is_teacher user)); [reflexivity |].
    destruct (serializers.RoomSerializer.is_valid _ _ _) as [? | [[? ?] ?]];
      reflexivity.
  - reflexivity.
Qed.

Lemma later_blacklist (db db' : Db.t) :
  system.later env db db' -> Db.blacklisted db ⊆ Db.blacklisted db'.
Proof.
  induction 1 as [| db1 db2 db3 Hstep _ IH]; [reflexivity |].
  etransitivity; [| exact IH].
  destruct Hstep; [apply handle_blacklist | reflexivity | reflexivity].
Qed.

(** No endpoint touches the clock. *)
Lemma handle_now (c : system.Call) (db : Db.t) :
  Db.now (snd (system.handle env c db)) = Db.now db.
Proof.
  destruct c; simpl.
  - unfold views.LoginView.
    destruct (system.login_fields env username password) as [errors | [u p]];
      [reflexivity |].
    unfold serializers.CustomTokenObtainPairSerializer.validate. eff.
    destruct (serializers.CustomTokenObtainPairSerializer.django_authenticate
                db u p); reflexivity.
  - destruct (refresh_token_view_frame (system.cfg env) data_refresh db)
      as [[-> _] | (r & cl & -> & Hv)]; [reflexivity |].
    rewrite (refresh_token_view_valid _ _ _ _ Hv). reflexivity.
  - destruct (logout_view_frame (system.cfg env) user data_refresh db)
      as [-> | (r & cl & -> & Hv)]; [reflexivity |].
    rewrite (logout_view_valid _ _ _ _ _ Hv). reflexivity.
  - reflexivity.
  - reflexivity.
  - unfold views.RoomListCreateView.post.
    destruct (negb (User.is_teacher user)); [reflexivity |].
    destruct (serializers.RoomSerializer.is_valid _ _ _) as [? | [[? ?] ?]];
      reflexivity.
  - reflexivity.
Qed.

(** The clock never runs backwards. *)
Lemma later_now (db db' : Db.t) :
  system.later env db db' -> Db.now db <= Db.now db'.
Proof.
  induction 1 as [| db1 db2 db3 Hstep _ IH]; [lia |].
  etransitivity; [| exact IH].
  destruct Hstep; [rewrite handle_now; lia | simpl; lia | simpl; lia].
Qed.

End Later.

(** ** How access credentials are checked *)

Section AccessCredentials.

Variable cfg : settings.t.

Lemma authenticate_iff (db : Db.t) (key : string) (claims : jwt.Payload)
  (u : User.t) :
  fst (simplejwt.authenticate cfg (jwt.Compact key claims) db) = inr u
  <-> access_conditions cfg db (jwt.Compact key claims) claims u.
Proof.
  unfold access_conditions, simplejwt.authenticate, simplejwt.AccessToken,
    simplejwt.decode, simplejwt.check_exp, simplejwt.verify_token_type.
  eff; simpl.
  destruct (String.eqb_spec key (settings.SIGNING_KEY cfg)) as [-> | Hkey];
    simpl.
  2:{ split; [discriminate | intros (E & _)]. injection E as ->.
      contradiction. }
  destruct (Z.ltb_spec (Db.now db) (jwt.iat claims)) as [Hearly | Hiat];
    simpl.
  { split; [discriminate | intros (_ & _ & _ & _ & _ & ?); lia]. }
  destruct (Z.leb_spec (jwt.exp claims) (Db.now db)) as [Hle | Hlt]; simpl.
  { split; [discriminate | intros (_ & ? & _); lia]. }
  pose proof (proj2 (Z.leb_gt _ _) Hlt) as Hexp. rewrite Hexp.
  destruct (String.eqb_spec (jwt.token_type claims) "access") as [Ht | Ht];
    simpl.
  2:{ split; [discriminate | intros (_ & _ & ? & _); contradiction]. }
  destruct (Db.get_user db (jwt.user_id claims)) as [user |]; simpl.
  2:{ split; [discriminate | intros (_ & _ & _ & ? & _); discriminate]. }
  destruct (User.is_active user) eqn:Hact; simpl.
  - split.
    + intros E. injection E as <-. auto 10.
    + intros (_ & _ & _ & E & _). injection E as <-. reflexivity.
  - split; [discriminate | intros (_ & _ & _ & E & Hu & _)].
    injection E as <-. congruence.
Qed.

(** No check on an access credential reads the blacklist. *)
Lemma authenticate_ignores_blacklist (a : jwt.Encoded) (b : gset N)
  (db : Db.t) :
  fst (simplejwt.authenticate cfg a (Db.set_blacklisted b db))
  = fst (simplejwt.authenticate cfg a db).
Proof.
  destruct a as [s | key claims]; [reflexivity |].
  unfold simplejwt.authenticate, simplejwt.AccessToken, simplejwt.decode,
    simplejwt.check_exp, simplejwt.verify_token_type, Db.get_user.
  eff; simpl.
  destruct (negb _); simpl; [reflexivity |].
  destruct (Db.now db <? jwt.iat claims); simpl; [reflexivity |].
  destruct (jwt.exp claims <=? Db.now db) eqn:Hexp; simpl; [reflexivity |].
  rewrite Hexp.
  destruct (String.eqb _ _); simpl; [| reflexivity].
  destruct (find _ _) as [user |]; simpl; [| reflexivity].
  destruct (User.is_active user); reflexivity.
Qed.

Lemma authenticate_until_exp (db : Db.t) (b : gset N) (key : string)
  (claims : jwt.Payload) (u : User.t) (t : Z) :
  fst (simplejwt.authenticate cfg (jwt.Compact key claims) db) = inr u ->
  Db.now db <= t < jwt.exp claims ->
  fst (simplejwt.authenticate cfg (jwt.Compact key claims)
         (Db.set_now t (Db.set_blacklisted b db)))
  = inr u.
Proof.
  intros Hu Ht. apply authenticate_iff in Hu. apply authenticate_iff.
  destruct Hu as (Ha & _ & Htype & Huser & Hact & Hiat).
  repeat split; simpl; auto; lia.
Qed.

End AccessCredentials.

(** ** What reaches the signer *)

Section MediaTokens.

Variable to_jwt : api.signer.
Variable cfg : settings.t.

Lemma timedelta_value (n m : Z) : timedelta n = inr m -> m = n.
Proof.
  unfold timedelta. destruct (_ && _); [| discriminate].
  intros E. injection E as <-. reflexivity.
Qed.

Lemma generate_unfold (room_name : string) (user : User.t) :
  tokens.generate_livekit_token to_jwt cfg room_name user
  = match tokens._validate_livekit_config cfg with
    | inl e => (inl e, [])
    | inr _ =>
        match timedelta (settings.LIVEKIT_TOKEN_TTL_SECONDS cfg) with
        | inl e => (inl e, [])
        | inr _ =>
            (jwt_string ← to_jwt (built cfg room_name user);
             mret (jwt_string, User.is_teacher user),
             [built cfg room_name user])
        end
    end.
Proof.
  unfold tokens.generate_livekit_token.
  destruct (tokens._validate_livekit_config cfg); [reflexivity |].
  destruct (timedelta _) as [e | td] eqn:Htd; [reflexivity |].
  apply timedelta_value in Htd. subst td. reflexivity.
Qed.

Lemma generate_calls (room_name : string) (user : User.t)
  (token : api.AccessToken) :
  token ∈ snd (tokens.generate_livekit_token to_jwt cfg room_name user) ->
  token = built cfg room_name user.
Proof.
  rewrite generate_unfold.
  destruct (tokens._validate_livekit_config cfg); simpl;
    [intros Hin; inversion Hin |].
  destruct (timedelta _); simpl; [intros Hin; inversion Hin |].
  intros Hin. apply list_elem_of_singleton in Hin. exact Hin.
Qed.

Lemma generate_ok (room_name : string) (user : User.t) (jwt_string : string)
  (is_teacher : bool) :
  fst (tokens.generate_livekit_token to_jwt cfg room_name user)
  = inr (jwt_string, is_teacher) ->
  tokens.generate_livekit_token to_jwt cfg room_name user
  = (inr (jwt_string, User.is_teacher user), [built cfg room_name user])
  /\ to_jwt (built cfg room_name user) = inr jwt_string
  /\ tokens.missing_keys cfg = [].
Proof.
  rewrite generate_unfold. unfold tokens._validate_livekit_config.
  destruct (tokens.missing_keys cfg); simpl; [| discriminate].
  destruct (timedelta _); simpl; [discriminate |].
  cbv [mbind mret Exc_bind Exc_ret].
  destruct (to_jwt (built cfg room_name user)) as [e | j]; simpl;
    [discriminate |].
  intros E. injection E as -> <-. auto.
Qed.

Lemma get_livekit_token_calls (user : User.t) (data_room : option string)
  (db : Db.t) (token : api.AccessToken) :
  token ∈ snd (views.get_livekit_token to_jwt cfg user data_room db) ->
  exists room_name,
    serializers.TokenRequestSerializer.is_valid db data_room = inr room_name
    /\ token = built cfg room_name user.
Proof.
  unfold views.get_livekit_token.
  destruct (serializers.TokenRequestSerializer.is_valid db data_room)
    as [errors | room_name]; simpl; [intros Hin; inversion Hin |].
  intros Hin. exists room_name. split; [reflexivity |].
  apply generate_calls.
  destruct (tokens.generate_livekit_token to_jwt cfg room_name user)
    as [[[] | [? ?]] calls]; exact Hin.
Qed.

(** A 200 of the token endpoint, spelled out. *)
Lemma get_livekit_token_ok (user : User.t) (data_room : option string)
  (db : Db.t) :
  Response.status (fst (views.get_livekit_token to_jwt cfg user data_room db))
  = status.HTTP_200_OK ->
  exists room_name jwt_string,
    serializers.TokenRequestSerializer.is_valid db data_room = inr room_name
    /\ to_jwt (built cfg room_name user) = inr jwt_string
    /\ tokens.missing_keys cfg = []
    /\ views.get_livekit_token to_jwt cfg user data_room db
       = (Response.mk
            (JObj [("livekit_url",
                    match settings.LIVEKIT_URL cfg with
                    | Some url => JStr url
                    | None => JNull
                    end);
                   ("token", JStr jwt_string);
                   ("room", JStr room_name);
                   ("is_teacher", JBool (User.is_teacher user))])
            status.HTTP_200_OK,
          [built cfg room_name user]).
Proof.
  unfold views.get_livekit_token.
  destruct (serializers.TokenRequestSerializer.is_valid db data_room)
    as [errors | room_name]; simpl; [discriminate |].
  destruct (tokens.generate_livekit_token to_jwt cfg room_name user)
    as [[e | [jwt_string is_teacher]] calls] eqn:Hgen.
  - destruct e; simpl; discriminate.
  - intros _. destruct (generate_ok room_name user jwt_string is_teacher)
      as (Heq & Hjwt & Hcfg); [rewrite Hgen; reflexivity |].
    rewrite Hgen in Heq. injection Heq as -> ->.
    exists room_name, jwt_string. auto.
Qed.

Lemma missing_keys_unfold :
  tokens.missing_keys cfg
  = ((if truthy_opt (settings.LIVEKIT_URL cfg) then [] else ["LIVEKIT_URL"])
     ++ (if truthy_opt (settings.LIVEKIT_API_KEY cfg) then []
         else ["LIVEKIT_API_KEY"])
     ++ (if truthy_opt (settings.LIVEKIT_API_SECRET cfg) then []
         else ["LIVEKIT_API_SECRET"]))%list.
Proof.
  unfold tokens.missing_keys, tokens.LIVEKIT_KEYS. simpl.
  change (settings.getattr cfg "LIVEKIT_URL") with (settings.LIVEKIT_URL cfg).
  change (settings.getattr cfg "LIVEKIT_API_KEY")
    with (settings.LIVEKIT_API_KEY cfg).
  change (settings.getattr cfg "LIVEKIT_API_SECRET")
    with (settings.LIVEKIT_API_SECRET cfg).
  destruct (truthy_opt (settings.LIVEKIT_URL cfg));
    destruct (truthy_opt (settings.LIVEKIT_API_KEY cfg));
    destruct (truthy_opt (settings.LIVEKIT_API_SECRET cfg)); reflexivity.
Qed.

Lemma missing_keys_absent :
  absent (settings.LIVEKIT_URL cfg) \/ absent (settings.LIVEKIT_API_KEY cfg)
  \/ absent (settings.LIVEKIT_API_SECRET cfg) ->
  tokens.missing_keys cfg <> [].
Proof.
  rewrite missing_keys_unfold. unfold absent.
  intros [H | [H | H]]; rewrite H;
    repeat (destruct (truthy_opt _)); discriminate.
Qed.

Lemma room_exists_names (db : Db.t) (value : string) :
  serializers.TokenRequestSerializer.room_exists db value = true ->
  exists r, r ∈ Db.rooms db /\ Room.is_active r = true
            /\ Room.name r = value.
Proof.
  unfold serializers.TokenRequestSerializer.room_exists.
  intros H. apply List.existsb_exists in H. destruct H as (r & Hin & Hr).
  apply andb_true_iff in Hr. destruct Hr as [Hn Ha].
  exists r. rewrite list_elem_of_In. apply String.eqb_eq in Hn. auto.
Qed.

(** A body passes [is_valid] only with a room that is there: the
    validated name is the trimmed field and an active room bears it. *)
Lemma is_valid_names (db : Db.t) (data_room : option string)
  (room_name : string) :
  serializers.TokenRequestSerializer.is_valid db data_room = inr room_name ->
  exists s, data_room = Some s /\ room_name = strip s
            /\ serializers.TokenRequestSerializer.room_exists db room_name
               = true.
Proof.
  unfold serializers.TokenRequestSerializer.is_valid, serializers.SlugField,
    serializers.CharField_run_validation,
    serializers.TokenRequestSerializer.validate_room.
  destruct data_room as [s |]; [| discriminate].
  destruct (_ || _); [discriminate |].
  destruct (concat _); [| discriminate].
  destruct (serializers.TokenRequestSerializer.room_exists db (strip s))
    eqn:Hex; simpl; [| discriminate].
  intros E. injection E as <-. eauto.
Qed.

End MediaTokens.

(** ** Where the configuration is read *)

Section Secrets.

Variables c c' : settings.t.
Hypothesis Hsame : same_but_signing_secrets c c'.

Lemma same_signing_key : settings.SIGNING_KEY c = settings.SIGNING_KEY c'.
Proof. exact (proj1 Hsame). Qed.

Lemma same_RefreshToken (r : jwt.Encoded) :
  simplejwt.RefreshToken c r = simplejwt.RefreshToken c' r.
Proof.
  unfold simplejwt.RefreshToken, simplejwt.decode.
  rewrite same_signing_key. reflexivity.
Qed.

Lemma same_encode : simplejwt.encode c = simplejwt.encode c'.
Proof. unfold simplejwt.encode. rewrite same_signing_key. reflexivity. Qed.

Lemma same_refresh_token_view (data : option jwt.Encoded) :
  views.refresh_token_view c data = views.refresh_token_view c' data.
Proof.
  unfold views.refresh_token_view. destruct data as [r |]; [| reflexivity].
  rewrite same_RefreshToken, same_encode. reflexivity.
Qed.

Lemma same_logout_view (user : User.t) (data : option jwt.Encoded) :
  views.logout_view c user data = views.logout_view c' user data.
Proof.
  unfold views.logout_view. destruct data as [r |]; [| reflexivity].
  rewrite same_RefreshToken. reflexivity.
Qed.

Lemma same_LoginView
  (fields : serializers.CustomTokenObtainPairSerializer.Fields)
  (username password : option string) :
  views.LoginView fields c username password
  = views.LoginView fields c' username password.
Proof.
  unfold views.LoginView, serializers.CustomTokenObtainPairSerializer.validate.
  rewrite same_encode. reflexivity.
Qed.

Lemma same_missing_keys : tokens.missing_keys c = tokens.missing_keys c'.
Proof.
  destruct Hsame as (_ & Hurl & Hkey & Hsecret & _).
  rewrite !missing_keys_unfold, Hurl, Hkey, Hsecret. reflexivity.
Qed.

Lemma same_get_livekit_token (f f' : api.signer) (user : User.t)
  (data_room : option string) (db : Db.t) :
  (forall room_name,
     f (built c room_name user) = f' (built c' room_name user)) ->
  fst (views.get_livekit_token f c user data_room db)
  = fst (views.get_livekit_token f' c' user data_room db).
Proof.
  intros Hsigner. unfold views.get_livekit_token.
  destruct (serializers.TokenRequestSerializer.is_valid db data_room)
    as [errors | room_name]; [reflexivity |].
  rewrite !generate_unfold. unfold tokens._validate_livekit_config.
  rewrite same_missing_keys.
  destruct (tokens.missing_keys c'); [| reflexivity].
  destruct Hsame as (_ & Hurl & _ & _ & Httl).
  destruct (timedelta (settings.LIVEKIT_TOKEN_TTL_SECONDS c))
    as [e | td] eqn:E;
    destruct (timedelta (settings.LIVEKIT_TOKEN_TTL_SECONDS c'))
      as [e' | td'] eqn:E';
    try discriminate.
  - unfold timedelta in E, E'.
    destruct (_ && _); [discriminate |]. destruct (_ && _); [discriminate |].
    injection E as <-. injection E' as <-. reflexivity.
  - cbv [mret Exc_ret mbind Exc_bind]. rewrite Hsigner, Hurl.
    destruct (f' (built c' room_name user)) as [[] |]; reflexivity.
Qed.

End Secrets.

(** ** Grant policy and media tokens *)

(** C1.  The grant inside every builder handed to the signer follows the
    role table: for role [student] every publish, admin and record flag
    is off, the source list is empty and subscribing is on; for role
    [teacher] every flag is on, the sources are camera, microphone and
    screen_share, and subscribing is on. *)
Theorem grant_follows_role_table (to_jwt : api.signer) (cfg : settings.t)
  (room_name : string) (user : User.t) (token : api.AccessToken) :
  token ∈ snd (tokens.generate_livekit_token to_jwt cfg room_name user) ->
  exists g,
    api.grants token = Some g
    /\ (User.role user = "student" ->
        api.can_publish g = false /\ api.can_publish_data g = false
        /\ api.room_admin g = false /\ api.room_record g = false
        /\ api.can_publish_sources g = [] /\ api.can_subscribe g = true)
    /\ (User.role user = "teacher" ->
        api.can_publish g = true /\ api.can_publish_data g = true
        /\ api.room_admin g = true /\ api.room_record g = true
        /\ api.can_publish_sources g = ["camera"; "microphone"; "screen_share"]
        /\ api.can_subscribe g = true).
Proof.
  intros Hin. apply generate_calls in Hin. subst token.
  eexists. split; [reflexivity |].
  unfold User.is_teacher, UserRole.TEACHER.
  split; intros ->; simpl; repeat split; reflexivity.
Qed.

Lemma grant_follows_role_table_witness :
  (exists g,
     api.grants (built sample.cfg "math-101" sample.bilal) = Some g
     /\ api.can_publish g = false /\ api.can_publish_sources g = [])
  /\ (exists g,
        api.grants (built sample.cfg "math-101" sample.asha) = Some g
        /\ api.can_publish g = true
        /\ api.can_publish_sources g
           = ["camera"; "microphone"; "screen_share"]).
Proof.
  split.
  - destruct (grant_follows_role_table sample.to_jwt sample.cfg "math-101"
                sample.bilal (built sample.cfg "math-101" sample.bilal))
      as (g & Hg & Hs & _).
    + vm_compute. left.
    + exists g. destruct (Hs eq_refl) as (? & _ & _ & _ & ? & _). auto.
  - destruct (grant_follows_role_table sample.to_jwt sample.cfg "math-101"
                sample.asha (built sample.cfg "math-101" sample.asha))
      as (g & Hg & _ & Ht).
    + vm_compute. left.
    + exists g. destruct (Ht eq_refl) as (? & _ & _ & _ & ? & _). auto.
Defined.

(** C4, as stated, fails: a user whose role is neither [teacher] nor
    [student] is given a grant, and the token is issued. *)
Lemma unrecognised_role_is_granted :
  User.role sample.carol <> "teacher"
  /\ User.role sample.carol <> "student"
  /\ tokens.generate_livekit_token sample.to_jwt sample.cfg "math-101"
       sample.carol
     = (inr ("signed.media.token", false),
        [built sample.cfg "math-101" sample.carol])
  /\ api.grants (built sample.cfg "math-101" sample.carol)
     = Some (tokens.video_grants "math-101" false).
Proof.
  split; [discriminate |]. split; [discriminate |]. split; reflexivity.
Qed.

(** C4, amended.  The grant is computed for every role value and no role
    makes the computation raise: a user whose role is anything but
    [teacher] gets, step for step, what the same user with role [student]
    gets, and the grant is the subscribe-only one. *)
Theorem every_other_role_is_a_student (to_jwt : api.signer)
  (cfg : settings.t) (room_name : string) (user : User.t) :
  User.role user <> "teacher" ->
  tokens.generate_livekit_token to_jwt cfg room_name user
  = tokens.generate_livekit_token to_jwt cfg room_name
      (with_role "student" user)
  /\ tokens.video_grants room_name (User.is_teacher user)
     = {| api.room_join := true;
          api.room := room_name;
          api.can_publish := false;
          api.can_publish_data := false;
          api.can_subscribe := true;
          api.can_publish_sources := [];
          api.room_admin := false;
          api.room_record := false |}.
Proof.
  intros Hrole.
  assert (User.is_teacher user = false) as Hnot.
  { unfold User.is_teacher, UserRole.TEACHER.
    destruct (String.eqb_spec (User.role user) "teacher"); congruence. }
  unfold tokens.generate_livekit_token, User.get_full_name.
  rewrite Hnot. split; reflexivity.
Qed.

Lemma every_other_role_is_a_student_witness :
  tokens.generate_livekit_token sample.to_jwt sample.cfg "math-101"
    sample.carol
  = tokens.generate_livekit_token sample.to_jwt sample.cfg "math-101"
      (with_role "student" sample.carol).
Proof.
  apply (every_other_role_is_a_student sample.to_jwt sample.cfg "math-101"
           sample.carol).
  discriminate.
Defined.

(** C5.  A request whose room names no active room of the Room Directory
    is answered 400, and nothing is handed to the signer. *)
Theorem unknown_room_is_a_validation_error (to_jwt : api.signer)
  (cfg : settings.t) (user : User.t) (data_room : option string)
  (db : Db.t) :
  (forall s, data_room = Some s -> ~ names_active_room db s) ->
  Response.status (fst (views.get_livekit_token to_jwt cfg user data_room db))
  = status.HTTP_400_BAD_REQUEST
  /\ snd (views.get_livekit_token to_jwt cfg user data_room db) = [].
Proof.
  intros Hno. unfold views.get_livekit_token.
  destruct (serializers.TokenRequestSerializer.is_valid db data_room)
    as [errors | room_name] eqn:Hvalid; [split; reflexivity |].
  exfalso. apply is_valid_names in Hvalid.
  destruct Hvalid as (s & -> & -> & Hex).
  apply (Hno s eq_refl). apply room_exists_names in Hex. exact Hex.
Qed.

Lemma unknown_room_is_a_validation_error_witness :
  Response.status
    (fst (views.get_livekit_token sample.to_jwt sample.cfg sample.bilal
            (Some "physics-7") sample.db))
  = 400
  /\ snd (views.get_livekit_token sample.to_jwt sample.cfg sample.bilal
            (Some "physics-7") sample.db) = [].
Proof.
  apply (unknown_room_is_a_validation_error sample.to_jwt sample.cfg
           sample.bilal (Some "physics-7") sample.db).
  intros s E (r & Hin & _ & Hname). injection E as <-.
  vm_compute in Hin. apply list_elem_of_singleton in Hin. subst r.
  vm_compute in Hname. discriminate.
Defined.

(** The room field is read the way the framework reads a [SlugField]:
    whitespace around the name is dropped before the directory is asked. *)
Example padded_room_name_is_trimmed :
  fst (views.get_livekit_token sample.to_jwt sample.cfg sample.bilal
         (Some " math-101 ") sample.db)
  = fst (views.get_livekit_token sample.to_jwt sample.cfg sample.bilal
           (Some "math-101") sample.db).
Proof. reflexivity. Qed.

(** C6, as stated, fails: with [LIVEKIT_URL] absent, a request for a room
    that does not exist is answered 400, not 503. *)
Lemma missing_config_unknown_room_is_400 :
  absent (settings.LIVEKIT_URL sample.cfg_no_url)
  /\ Response.status
       (fst (views.get_livekit_token sample.to_jwt sample.cfg_no_url
               sample.bilal (Some "physics-7") sample.db))
     = status.HTTP_400_BAD_REQUEST
  /\ status.HTTP_400_BAD_REQUEST <> status.HTTP_503_SERVICE_UNAVAILABLE.
Proof.
  split; [reflexivity |]. split; [reflexivity |]. discriminate.
Qed.

(** C6, amended.  The body is validated first.  A request whose body is
    valid, made while the endpoint URL, the API key or the API secret is
    absent, is answered 503 with a fixed body and nothing is handed to
    the signer; 503 is neither the 400 of a validation error nor the 500
    of a signing failure. *)
Theorem missing_config_is_service_unavailable (to_jwt : api.signer)
  (cfg : settings.t) (user : User.t) (data_room : option string)
  (room_name : string) (db : Db.t) :
  absent (settings.LIVEKIT_URL cfg) \/ absent (settings.LIVEKIT_API_KEY cfg)
  \/ absent (settings.LIVEKIT_API_SECRET cfg) ->
  serializers.TokenRequestSerializer.is_valid db data_room = inr room_name ->
  views.get_livekit_token to_jwt cfg user data_room db
  = (Response.mk
       (detail "Streaming service is not configured. Contact an administrator.")
       status.HTTP_503_SERVICE_UNAVAILABLE, [])
  /\ status.HTTP_503_SERVICE_UNAVAILABLE <> status.HTTP_400_BAD_REQUEST
  /\ status.HTTP_503_SERVICE_UNAVAILABLE
     <> status.HTTP_500_INTERNAL_SERVER_ERROR.
Proof.
  intros Habsent Hvalid. apply missing_keys_absent in Habsent.
  split; [| split; discriminate].
  unfold views.get_livekit_token. rewrite Hvalid.
  unfold tokens.generate_livekit_token, tokens._validate_livekit_config.
  destruct (tokens.missing_keys cfg); [contradiction | reflexivity].
Qed.

Lemma missing_config_is_service_unavailable_witness :
  Response.status
    (fst (views.get_livekit_token sample.to_jwt sample.cfg_no_url
            sample.bilal (Some "math-101") sample.db))
  = 503.
Proof.
  pose proof (missing_config_is_service_unavailable sample.to_jwt
                sample.cfg_no_url sample.bilal (Some "math-101") "math-101"
                sample.db (or_introl eq_refl) eq_refl) as [H _].
  rewrite H. reflexivity.
Defined.

(** A failure of the signer itself, with the configuration in place, is
    the 500 that 503 is told apart from. *)
Lemma signing_failure_is_internal_error (to_jwt : api.signer)
  (cfg : settings.t) (user : User.t) (data_room : option string)
  (room_name cls msg : string) (db : Db.t) :
  tokens.missing_keys cfg = [] ->
  serializers.TokenRequestSerializer.is_valid db data_room = inr room_name ->
  to_jwt (built cfg room_name user) = inl (OtherError cls msg) ->
  Response.status (fst (views.get_livekit_token to_jwt cfg user data_room db))
  = status.HTTP_500_INTERNAL_SERVER_ERROR.
Proof.
  intros Hcfg Hvalid Hsign. unfold views.get_livekit_token. rewrite Hvalid.
  rewrite generate_unfold. unfold tokens._validate_livekit_config.
  rewrite Hcfg. simpl.
  destruct (timedelta _) as [e | td] eqn:Htd.
  - unfold timedelta in Htd. destruct (_ && _); [discriminate |].
    injection Htd as <-. reflexivity.
  - rewrite Hsign. reflexivity.
Qed.

(** C7.  Whenever a media token is issued, exactly one builder went to
    the signer and its subject is the decimal numeral of the user's id;
    the username and the email play no part in it: a request by any
    record with the same id has the same subject. *)
Theorem media_token_subject_is_user_id (to_jwt : api.signer)
  (cfg : settings.t) (user : User.t) (data_room : option string)
  (db : Db.t) :
  Response.status (fst (views.get_livekit_token to_jwt cfg user data_room db))
  = status.HTTP_200_OK ->
  exists token,
    snd (views.get_livekit_token to_jwt cfg user data_room db) = [token]
    /\ api.identity token = Some (str (User.id user))
    /\ forall other data_room' db' token',
         User.id other = User.id user ->
         token' ∈ snd (views.get_livekit_token to_jwt cfg other data_room' db')
         -> api.identity token' = api.identity token.
Proof.
  intros Hok. apply get_livekit_token_ok in Hok.
  destruct Hok as (room_name & jwt_string & _ & _ & _ & ->).
  exists (built cfg room_name user). split; [reflexivity |].
  split; [reflexivity |].
  intros other data_room' db' token' Hid Hin.
  apply get_livekit_token_calls in Hin. destruct Hin as (rn & _ & ->).
  simpl. rewrite Hid. reflexivity.
Qed.

Lemma media_token_subject_is_user_id_witness :
  exists token,
    snd (views.get_livekit_token sample.to_jwt sample.cfg sample.bilal
           (Some "math-101") sample.db) = [token]
    /\ api.identity token = Some "2".
Proof.
  destruct (media_token_subject_is_user_id sample.to_jwt sample.cfg
              sample.bilal (Some "math-101") sample.db eq_refl)
    as (token & Hcalls & Hid & _).
  exists token. split; [exact Hcalls | exact Hid].
Defined.

(** ** Session credentials *)

(** C2.  Once a valid refresh credential has been presented for rotation
    or has been revoked, it stays refused, whatever was served and however
    much time passed in between: its identifier is on the blacklist, the
    check [RefreshToken] that accepted it before now raises a [TokenError]
    on it, which is "Token is blacklisted" for as long as the credential
    has not run out, and the refresh endpoint answers 401 "Invalid or
    expired refresh token." and writes nothing. *)
Theorem used_or_revoked_refresh_is_never_accepted (env : system.Env)
  (r : jwt.Encoded) (claims : jwt.Payload) (caller : User.t)
  (db db1 db2 : Db.t) :
  valid_refresh (system.cfg env) db r claims ->
  db1 = snd (views.refresh_token_view (system.cfg env) (Some r) db)
  \/ db1 = snd (views.logout_view (system.cfg env) caller (Some r) db) ->
  system.later env db1 db2 ->
  jwt.jti claims ∈ Db.blacklisted db2
  /\ (exists msg,
        simplejwt.RefreshToken (system.cfg env) r db2
        = (inl (TokenError msg), db2)
        /\ (Db.now db2 < jwt.exp claims -> msg = "Token is blacklisted"))
  /\ (forall claims', ~ valid_refresh (system.cfg env) db2 r claims')
  /\ views.refresh_token_view (system.cfg env) (Some r) db2
     = (INVALID_CREDENTIAL, db2).
Proof.
  intros Hvalid Hused Hlater.
  assert (jwt.jti claims ∈ Db.blacklisted db1 /\ Db.now db1 = Db.now db)
    as [Hin Hnow].
  { destruct Hused as [-> | ->].
    - rewrite (refresh_token_view_valid _ _ _ _ Hvalid). simpl.
      split; [| reflexivity].
      apply elem_of_union_l, elem_of_singleton. reflexivity.
    - rewrite (logout_view_valid _ _ _ _ _ Hvalid). simpl.
      split; [| reflexivity].
      apply elem_of_union_l, elem_of_singleton. reflexivity. }
  pose proof (later_now _ _ _ Hlater) as Hclock.
  apply later_blacklist in Hlater. apply Hlater in Hin.
  apply valid_refresh_iff in Hvalid.
  destruct Hvalid as (Hr & _ & _ & _ & Hiat).
  assert (jwt.iat claims <= Db.now db2) as Hiat2 by lia.
  pose proof (blacklisted_raises _ _ _ _ Hr Hin Hiat2) as Hraise.
  split; [exact Hin |]. split; [| split].
  - eexists. split; [exact Hraise |]. intros Hlive.
    destruct (Z.leb_spec (jwt.exp claims) (Db.now db2)); [lia | reflexivity].
  - intros claims' Hv. unfold valid_refresh in Hv. rewrite Hraise in Hv.
    discriminate.
  - apply (refresh_token_view_rejects _ _ _ _ (f_equal jwt.truthy Hr) Hraise).
Qed.

Lemma used_or_revoked_refresh_is_never_accepted_witness :
  let revoked :=
    snd (views.logout_view sample.cfg sample.bilal (Some sample.bilal_refresh)
           sample.db) in
  let rotated :=
    snd (views.refresh_token_view sample.cfg (Some sample.bilal_refresh)
           sample.db) in
  simplejwt.RefreshToken sample.cfg sample.bilal_refresh sample.db
  = (inr sample.bilal_refresh_claims, sample.db)
  /\ simplejwt.RefreshToken sample.cfg sample.bilal_refresh
       (Db.set_now 160 revoked)
     = (inl (TokenError "Token is blacklisted"), Db.set_now 160 revoked)
  /\ views.refresh_token_view sample.cfg (Some sample.bilal_refresh) rotated
     = (INVALID_CREDENTIAL, rotated).
Proof.
  split; [reflexivity |]. split.
  - destruct (used_or_revoked_refresh_is_never_accepted sample.env
                sample.bilal_refresh sample.bilal_refresh_claims sample.bilal
                sample.db
                (snd (views.logout_view sample.cfg sample.bilal
                        (Some sample.bilal_refresh) sample.db))
                (Db.set_now 160
                   (snd (views.logout_view sample.cfg sample.bilal
                           (Some sample.bilal_refresh) sample.db))))
      as (_ & (msg & Hraise & Hmsg) & _).
    + reflexivity.
    + right. reflexivity.
    + eapply rtc_l; [| apply rtc_refl].
      apply (system.step_tick sample.env 60). lia.
    + rewrite Hmsg in Hraise; [exact Hraise | simpl; lia].
  - apply (used_or_revoked_refresh_is_never_accepted sample.env
             sample.bilal_refresh sample.bilal_refresh_claims sample.bilal
             sample.db
             (snd (views.refresh_token_view sample.cfg
                     (Some sample.bilal_refresh) sample.db))).
    + reflexivity.
    + left. reflexivity.
    + apply rtc_refl.
Defined.

(** C3.  What the code does instead: the refresh endpoint never answers
    200.  Given a valid refresh credential it blacklists it, then fails
    to mint the new one, because [for_user] is handed the claims where
    it expects a user, and answers 401: no new pair is issued. *)
Theorem refresh_never_issues_a_pair (cfg : settings.t)
  (data_refresh : option jwt.Encoded) (db : Db.t) :
  Response.status (fst (views.refresh_token_view cfg data_refresh db))
  <> status.HTTP_200_OK
  /\ forall r claims,
       data_refresh = Some r -> valid_refresh cfg db r claims ->
       fst (views.refresh_token_view cfg data_refresh db) = INVALID_CREDENTIAL
       /\ jwt.jti claims
          ∈ Db.blacklisted (snd (views.refresh_token_view cfg data_refresh db)).
Proof.
  split.
  - destruct (refresh_token_view_frame cfg data_refresh db)
      as [[_ Hstatus] | (r & c & -> & Hv)]; [exact Hstatus |].
    rewrite (refresh_token_view_valid _ _ _ _ Hv). discriminate.
  - intros r claims -> Hvalid.
    rewrite (refresh_token_view_valid _ _ _ _ Hvalid). simpl.
    split; [reflexivity |].
    apply elem_of_union_l, elem_of_singleton. reflexivity.
Qed.

Lemma refresh_never_issues_a_pair_witness :
  valid_refresh sample.cfg sample.db sample.bilal_refresh
                sample.bilal_refresh_claims
  /\ fst (views.refresh_token_view sample.cfg (Some sample.bilal_refresh)
            sample.db)
     = Response.mk (JObj [("detail", JStr "Invalid or expired refresh token.")])
                   401.
Proof.
  split; [reflexivity |].
  apply (proj2 (refresh_never_issues_a_pair sample.cfg
                  (Some sample.bilal_refresh) sample.db)
               sample.bilal_refresh sample.bilal_refresh_claims eq_refl).
  reflexivity.
Defined.

(** The same credential goes through [for_user] when the argument is
    the user it is bound to: the slip is in what the view passes. *)
Example for_user_of_a_user_mints :
  fst (simplejwt.for_user (simplejwt.ObjUser sample.bilal) sample.db)
  = inr (jwt.mkPayload "refresh" 604900 100 10%N 2 None None None)
  /\ fst (simplejwt.for_user (simplejwt.ObjDict sample.bilal_refresh_claims)
            sample.db)
     = inl (AttributeError "'dict' object has no attribute 'id'").
Proof. split; reflexivity. Qed.

(** C10.  Logout looks at the credential only.  Whoever the caller is, a
    valid refresh credential in the body is blacklisted and the answer
    is 200; nothing relates the caller to the user the credential is
    bound to, so one user can revoke the credential of another. *)
Theorem logout_revokes_for_any_caller (cfg : settings.t) (caller : User.t)
  (r : jwt.Encoded) (claims : jwt.Payload) (db : Db.t) :
  valid_refresh cfg db r claims ->
  views.logout_view cfg caller (Some r) db
  = (Response.mk (detail "Successfully logged out.") status.HTTP_200_OK,
     Db.set_blacklisted ({[jwt.jti claims]} ∪ Db.blacklisted db) db)
  /\ jwt.jti claims
     ∈ Db.blacklisted (snd (views.logout_view cfg caller (Some r) db)).
Proof.
  intros Hvalid. rewrite (logout_view_valid _ _ _ _ _ Hvalid).
  split; [reflexivity | simpl].
  apply elem_of_union_l, elem_of_singleton. reflexivity.
Qed.

Lemma logout_revokes_for_any_caller_witness :
  User.id sample.asha <> jwt.user_id sample.bilal_refresh_claims
  /\ Response.status
       (fst (views.logout_view sample.cfg sample.asha
               (Some sample.bilal_refresh) sample.db))
     = 200.
Proof.
  split; [discriminate |].
  destruct (logout_revokes_for_any_caller sample.cfg sample.asha
              sample.bilal_refresh sample.bilal_refresh_claims sample.db)
    as [H _].
  - reflexivity.
  - rewrite H. reflexivity.
Defined.

(** C8.  Logout writes nothing but the blacklist, and adds to it nothing
    but the [jti] of the refresh credential in the body.  Every other
    refresh credential stays as acceptable as it was, and every access
    credential authenticates exactly as before: one that was accepted
    keeps being accepted at every later time before its own [exp]. *)
Theorem logout_leaves_access_credentials_alone (cfg : settings.t)
  (caller : User.t) (data_refresh : option jwt.Encoded) (db : Db.t) :
  let db' := snd (views.logout_view cfg caller data_refresh db) in
  db' = Db.set_blacklisted (Db.blacklisted db') db
  /\ (forall j, j ∈ Db.blacklisted db' ->
        j ∈ Db.blacklisted db
        \/ exists key claims,
             data_refresh = Some (jwt.Compact key claims)
             /\ j = jwt.jti claims)
  /\ (forall r' claims',
        valid_refresh cfg db r' claims' ->
        (forall key claims, data_refresh = Some (jwt.Compact key claims) ->
                            jwt.jti claims <> jwt.jti claims') ->
        valid_refresh cfg db' r' claims')
  /\ (forall a,
        fst (simplejwt.authenticate cfg a db')
        = fst (simplejwt.authenticate cfg a db))
  /\ (forall key claims u t,
        fst (simplejwt.authenticate cfg (jwt.Compact key claims) db) = inr u ->
        Db.now db <= t < jwt.exp claims ->
        fst (simplejwt.authenticate cfg (jwt.Compact key claims)
               (Db.set_now t db'))
        = inr u).
Proof.
  intros db'. subst db'.
  destruct (logout_view_frame cfg caller data_refresh db)
    as [-> | (r & claims & -> & Hvalid)].
  - split; [destruct db; reflexivity |].
    split; [auto |]. split; [auto |]. split; [reflexivity |].
    intros key claims u t Hu Ht.
    rewrite <- (authenticate_until_exp cfg db (Db.blacklisted db) key claims
                  u t Hu Ht).
    destruct db; reflexivity.
  - rewrite (logout_view_valid _ _ _ _ _ Hvalid).
    pose proof (proj1 (valid_refresh_iff _ _ _ _) Hvalid) as (Hr & _).
    split; [reflexivity |]. split; [| split; [| split]].
    + intros j Hj. simpl in Hj. apply elem_of_union in Hj.
      destruct Hj as [Hj | Hj]; [right | left; exact Hj].
      apply elem_of_singleton in Hj. subst j. rewrite Hr. eauto.
    + intros r' claims' Hv' Hother.
      apply valid_refresh_iff in Hv'. apply valid_refresh_iff.
      destruct Hv' as (Hr' & Hnow & Hnot & Htype).
      split; [exact Hr' |]. split; [exact Hnow |]. split; [| exact Htype].
      simpl. rewrite not_elem_of_union, not_elem_of_singleton.
      split; [| exact Hnot].
      rewrite Hr in Hother. intros E. apply (Hother _ _ eq_refl).
      symmetry. exact E.
    + intros a. apply authenticate_ignores_blacklist.
    + intros key claims' u t Hu Ht.
      apply (authenticate_until_exp cfg db _ key claims' u t Hu Ht).
Qed.

Lemma logout_leaves_access_credentials_alone_witness :
  let db' :=
    snd (views.logout_view sample.cfg sample.bilal (Some sample.bilal_refresh)
           sample.db) in
  4%N ∈ Db.blacklisted db'
  /\ fst (simplejwt.authenticate sample.cfg sample.bilal_access
            (Db.set_now 3649 db'))
     = inr sample.bilal.
Proof.
  split.
  - apply elem_of_union_l, elem_of_singleton. reflexivity.
  - apply (logout_leaves_access_credentials_alone sample.cfg sample.bilal
             (Some sample.bilal_refresh) sample.db).
    + reflexivity.
    + simpl. lia.
Defined.

(** ** What a response can tell about the signing configuration *)

(** C9, as stated, fails: the successful answer of the token endpoint
    carries [LIVEKIT_URL] in its field [livekit_url]. *)
Lemma token_response_carries_livekit_url :
  settings.LIVEKIT_URL (system.cfg sample.env) = Some "wss://live.example.org"
  /\ fst (system.handle sample.env
            (system.Token sample.bilal (Some "math-101")) sample.db)
     = Response.mk
         (JObj [("livekit_url", JStr "wss://live.example.org");
                ("token", JStr "signed.media.token");
                ("room", JStr "math-101");
                ("is_teacher", JBool false)])
         status.HTTP_200_OK
  /\ mentions "wss://live.example.org"
       (Response.data
          (fst (system.handle sample.env
                  (system.Token sample.bilal (Some "math-101")) sample.db)))
     = true.
Proof. split; [reflexivity |]. split; reflexivity. Qed.

(** C9, amended.  The API key, the API secret and the TTL reach the
    signer and nothing else: replace them by other values and every
    endpoint gives the same response and leaves the same database,
    provided the signer returns the same string.  The endpoint URL is
    another matter: every 200 of the token endpoint carries it. *)
Theorem signing_secrets_reach_only_the_signer (env env' : system.Env)
  (call : system.Call) (db : Db.t) :
  same_but_signing_secrets (system.cfg env) (system.cfg env') ->
  system.login_fields env = system.login_fields env' ->
  system.rooms_serializer env = system.rooms_serializer env' ->
  (forall room_name user,
     system.to_jwt env (built (system.cfg env) room_name user)
     = system.to_jwt env' (built (system.cfg env') room_name user)) ->
  system.handle env call db = system.handle env' call db
  /\ forall user data_room,
       call = system.Token user data_room ->
       Response.status (fst (system.handle env call db)) = status.HTTP_200_OK ->
       exists url,
         settings.LIVEKIT_URL (system.cfg env) = Some url
         /\ mentions url (Response.data (fst (system.handle env call db)))
            = true.
Proof.
  intros Hsame Hfields Hrooms Hsigner. split.
  - destruct call; simpl.
    + rewrite Hfields, (same_LoginView _ _ Hsame). reflexivity.
    + rewrite (same_refresh_token_view _ _ Hsame). reflexivity.
    + rewrite (same_logout_view _ _ Hsame). reflexivity.
    + reflexivity.
    + rewrite Hrooms. reflexivity.
    + rewrite Hrooms. reflexivity.
    + rewrite (same_get_livekit_token _ _ Hsame (system.to_jwt env)
                 (system.to_jwt env')); [reflexivity |].
      intros room_name. apply Hsigner.
  - intros user data_room -> Hok. simpl in Hok |- *.
    apply get_livekit_token_ok in Hok.
    destruct Hok as (room_name & jwt_string & _ & _ & Hcfg & ->).
    rewrite missing_keys_unfold in Hcfg.
    destruct (settings.LIVEKIT_URL (system.cfg env)) as [url |];
      [| discriminate].
    exists url. split; [reflexivity |]. simpl.
    rewrite String.eqb_refl. reflexivity.
Qed.

Lemma signing_secrets_reach_only_the_signer_witness :
  settings.LIVEKIT_API_SECRET (system.cfg sample.env)
  <> settings.LIVEKIT_API_SECRET (system.cfg sample.env_rekeyed)
  /\ system.handle sample.env
       (system.Token sample.asha (Some "math-101")) sample.db
     = system.handle sample.env_rekeyed
         (system.Token sample.asha (Some "math-101")) sample.db.
Proof.
  split; [discriminate |].
  apply (signing_secrets_reach_only_the_signer sample.env sample.env_rekeyed
           (system.Token sample.asha (Some "math-101")) sample.db).
  - repeat split.
  - reflexivity.
  - reflexivity.
  - reflexivity.
Defined.

(** * Further properties of the code *)

(** ** streaming/tokens.py *)

(** X1.  The configuration check passes exactly when the endpoint URL,
    the API key and the API secret are all set and not empty.  When it
    does not, it raises [EnvironmentError] with a message that names the
    absent ones, and only those. *)
Theorem validate_livekit_config_passes_iff (cfg : settings.t) :
  (tokens._validate_livekit_config cfg = inr tt
   <-> truthy_opt (settings.LIVEKIT_URL cfg) = true
       /\ truthy_opt (settings.LIVEKIT_API_KEY cfg) = true
       /\ truthy_opt (settings.LIVEKIT_API_SECRET cfg) = true)
  /\ (forall e,
        tokens._validate_livekit_config cfg = inl e <->
        tokens.missing_keys cfg <> []
        /\ e = EnvironmentError
                 ("Missing required LiveKit environment variables: "
                  +:+ join ", " (tokens.missing_keys cfg)
                  +:+ ". Check your .env file."))
  /\ (forall key,
        key ∈ tokens.missing_keys cfg <->
        key ∈ tokens.LIVEKIT_KEYS /\ absent (settings.getattr cfg key)).
Proof.
  split; [| split].
  - unfold tokens._validate_livekit_config. rewrite missing_keys_unfold.
    destruct (truthy_opt (settings.LIVEKIT_URL cfg));
      destruct (truthy_opt (settings.LIVEKIT_API_KEY cfg));
      destruct (truthy_opt (settings.LIVEKIT_API_SECRET cfg)); simpl;
      split; try discriminate; try (intros (? & ? & ?); discriminate); auto.
  - intros e. unfold tokens._validate_livekit_config.
    destruct (tokens.missing_keys cfg) as [| k ks] eqn:Hm.
    + split; [discriminate | intros [Hne _]; contradiction].
    + split.
      * intros E. injection E as <-. split; [discriminate | reflexivity].
      * intros [_ ->]. reflexivity.
  - intros key. unfold tokens.missing_keys, absent.
    rewrite list_elem_of_In, filter_In, <- list_elem_of_In.
    rewrite negb_true_iff. tauto.
Qed.

Lemma calls_of_get_livekit_token (to_jwt : api.signer) (cfg : settings.t)
  (user : User.t) (data_room : option string) (db : Db.t) :
  snd (views.get_livekit_token to_jwt cfg user data_room db)
  = match serializers.TokenRequestSerializer.is_valid db data_room with
    | inl _ => []
    | inr room_name =>
        match tokens.missing_keys cfg with
        | [] =>
            if raises (timedelta (settings.LIVEKIT_TOKEN_TTL_SECONDS cfg))
            then []
            else [built cfg room_name user]
        | _ => []
        end
    end.
Proof.
  unfold views.get_livekit_token.
  destruct (serializers.TokenRequestSerializer.is_valid db data_room)
    as [errors | room_name]; [reflexivity |].
  rewrite generate_unfold. unfold tokens._validate_livekit_config.
  destruct (tokens.missing_keys cfg); [| reflexivity].
  destruct (timedelta _) as [[] |]; simpl; try reflexivity.
  cbv [mbind mret Exc_bind Exc_ret].
  destruct (to_jwt _) as [[] | ?]; reflexivity.
Qed.

(** X2.  One request asks the signer at most once, and there is no second
    attempt after a failure.  It asks exactly when the body is valid, the
    configuration is complete and the TTL is one [timedelta] takes; what
    it hands over then is the builder for the validated room and the
    requesting user. *)
Theorem signer_is_asked_at_most_once (to_jwt : api.signer) (cfg : settings.t)
  (user : User.t) (data_room : option string) (db : Db.t) :
  (length (snd (views.get_livekit_token to_jwt cfg user data_room db)) <= 1)%nat
  /\ forall token,
       snd (views.get_livekit_token to_jwt cfg user data_room db) = [token]
       <-> exists room_name,
             serializers.TokenRequestSerializer.is_valid db data_room
             = inr room_name
             /\ tokens.missing_keys cfg = []
             /\ raises (timedelta (settings.LIVEKIT_TOKEN_TTL_SECONDS cfg))
                = false
             /\ token = built cfg room_name user.
Proof.
  rewrite calls_of_get_livekit_token.
  destruct (serializers.TokenRequestSerializer.is_valid db data_room)
    as [errors | room_name].
  { split; [simpl; lia |]. intros token.
    split; [discriminate | intros (rn & E & _); discriminate]. }
  destruct (tokens.missing_keys cfg) as [| k ks].
  2:{ split; [simpl; lia |]. intros token.
      split; [discriminate | intros (rn & _ & E & _); discriminate]. }
  destruct (raises _).
  { split; [simpl; lia |]. intros token.
    split; [discriminate | intros (rn & _ & _ & E & _); discriminate]. }
  split; [simpl; lia |]. intros token. split.
  - intros E. injection E as <-. exists room_name. auto.
  - intros (rn & E & _ & _ & ->). injection E as ->. reflexivity.
Qed.

(** ** The token endpoint of streaming/views.py *)

Lemma timedelta_raises_iff (n : Z) :
  raises (timedelta n) = true
  <-> n / 86400 < -999999999 \/ 999999999 < n / 86400.
Proof.
  unfold timedelta.
  destruct (Z.leb_spec (-999999999) (n / 86400));
    destruct (Z.leb_spec (n / 86400) 999999999); simpl;
    split; try discriminate; try reflexivity; lia.
Qed.

(** X3.  A configured TTL of more days than [timedelta] can hold, either
    way, is not caught at start-up: every request with a valid body is
    then answered 500 with the generic body, before the signer is
    reached. *)
Theorem ttl_out_of_range_is_internal_error (to_jwt : api.signer)
  (cfg : settings.t) (user : User.t) (data_room : option string)
  (room_name : string) (db : Db.t) :
  serializers.TokenRequestSerializer.is_valid db data_room = inr room_name ->
  tokens.missing_keys cfg = [] ->
  settings.LIVEKIT_TOKEN_TTL_SECONDS cfg / 86400 < -999999999
  \/ 999999999 < settings.LIVEKIT_TOKEN_TTL_SECONDS cfg / 86400 ->
  views.get_livekit_token to_jwt cfg user data_room db
  = (Response.mk COULD_NOT_GENERATE status.HTTP_500_INTERNAL_SERVER_ERROR, []).
Proof.
  intros Hvalid Hcfg Httl. apply timedelta_raises_iff in Httl.
  unfold views.get_livekit_token. rewrite Hvalid, generate_unfold.
  unfold tokens._validate_livekit_config. rewrite Hcfg. simpl.
  unfold timedelta in *. destruct (_ && _); [discriminate | reflexivity].
Qed.

Lemma ttl_out_of_range_is_internal_error_witness :
  Response.status
    (fst (views.get_livekit_token sample.to_jwt sample_more.cfg_long_ttl
            sample.asha (Some "math-101") sample.db))
  = 500.
Proof.
  rewrite (ttl_out_of_range_is_internal_error sample.to_jwt
             sample_more.cfg_long_ttl sample.asha
             (Some "math-101") "math-101" sample.db eq_refl eq_refl).
  - reflexivity.
  - right. reflexivity.
Defined.

(** X4.  What the signer raises never reaches the client.  An
    [EnvironmentError] from the signer is answered like a missing
    configuration, 503 with the fixed body; every other exception is
    answered 500 with the other fixed body, whatever its class and
    message.  In both cases the signer was asked once. *)
Theorem signer_failure_is_a_fixed_answer (to_jwt : api.signer)
  (cfg : settings.t) (user : User.t) (data_room : option string)
  (room_name : string) (e : Exception) (db : Db.t) :
  serializers.TokenRequestSerializer.is_valid db data_room = inr room_name ->
  tokens.missing_keys cfg = [] ->
  raises (timedelta (settings.LIVEKIT_TOKEN_TTL_SECONDS cfg)) = false ->
  to_jwt (built cfg room_name user) = inl e ->
  views.get_livekit_token to_jwt cfg user data_room db
  = (match e with
     | EnvironmentError _ =>
         Response.mk NOT_CONFIGURED status.HTTP_503_SERVICE_UNAVAILABLE
     | _ =>
         Response.mk COULD_NOT_GENERATE status.HTTP_500_INTERNAL_SERVER_ERROR
     end,
     [built cfg room_name user]).
Proof.
  intros Hvalid Hcfg Httl Hsign.
  unfold views.get_livekit_token. rewrite Hvalid, generate_unfold.
  unfold tokens._validate_livekit_config. rewrite Hcfg. simpl.
  destruct (timedelta _); [discriminate |].
  rewrite Hsign. destruct e; reflexivity.
Qed.

Lemma signer_failure_is_a_fixed_answer_witness :
  fst (views.get_livekit_token sample_more.to_jwt_value_error
         sample.cfg sample.asha (Some "math-101") sample.db)
  = Response.mk COULD_NOT_GENERATE 500
  /\ fst (views.get_livekit_token sample_more.to_jwt_os_error
            sample.cfg sample.asha (Some "math-101") sample.db)
     = Response.mk NOT_CONFIGURED 503.
Proof.
  split.
  - rewrite (signer_failure_is_a_fixed_answer _ sample.cfg sample.asha
               (Some "math-101") "math-101"
               (OtherError "ValueError" "secret APIsecret is too short")
               sample.db eq_refl eq_refl eq_refl eq_refl).
    reflexivity.
  - rewrite (signer_failure_is_a_fixed_answer _ sample.cfg sample.asha
               (Some "math-101") "math-101"
               (EnvironmentError "connection refused")
               sample.db eq_refl eq_refl eq_refl eq_refl).
    reflexivity.
Defined.

(** X5.  The endpoint gives one of four answers and nothing else: 400
    with the serializer's errors, 503 or 500 with their fixed bodies, or
    200; and it answers 200 exactly when the body is valid, the
    configuration complete, the TTL in range and the signer returned a
    string, which is then the [token] of the body. *)
Theorem token_endpoint_answers (to_jwt : api.signer) (cfg : settings.t)
  (user : User.t) (data_room : option string) (db : Db.t) :
  let r := fst (views.get_livekit_token to_jwt cfg user data_room db) in
  (serializers.TokenRequestSerializer.is_valid db data_room
   = inl (Response.data r)
   /\ Response.status r = status.HTTP_400_BAD_REQUEST
   \/ r = Response.mk NOT_CONFIGURED status.HTTP_503_SERVICE_UNAVAILABLE
   \/ r = Response.mk COULD_NOT_GENERATE status.HTTP_500_INTERNAL_SERVER_ERROR
   \/ Response.status r = status.HTTP_200_OK)
  /\ (Response.status r = status.HTTP_200_OK
      <-> exists room_name jwt_string,
            serializers.TokenRequestSerializer.is_valid db data_room
            = inr room_name
            /\ tokens.missing_keys cfg = []
            /\ raises (timedelta (settings.LIVEKIT_TOKEN_TTL_SECONDS cfg))
               = false
            /\ to_jwt (built cfg room_name user) = inr jwt_string
            /\ field "token" (Response.data r) = Some (JStr jwt_string)).
Proof.
  intros r. subst r. unfold views.get_livekit_token.
  destruct (serializers.TokenRequestSerializer.is_valid db data_room)
    as [errors | room_name].
  { split; [left; split; reflexivity |].
    split; [discriminate | intros (? & ? & E & _); discriminate]. }
  rewrite generate_unfold. unfold tokens._validate_livekit_config.
  destruct (tokens.missing_keys cfg) as [| k ks]; simpl.
  2:{ split; [right; left; reflexivity |].
      split; [discriminate | intros (? & ? & _ & E & _); discriminate]. }
  destruct (timedelta _) as [e | td] eqn:Htd; simpl.
  { unfold timedelta in Htd. destruct (_ && _); [discriminate |].
    injection Htd as <-.
    split; [right; right; left; reflexivity |].
    split; [discriminate | intros (? & ? & _ & _ & E & _); discriminate]. }
  cbv [mbind mret Exc_bind Exc_ret].
  destruct (to_jwt (built cfg room_name user)) as [e | jwt_string] eqn:Hsign.
  - split.
    + destruct e; simpl; auto.
    + split.
      * destruct e; discriminate.
      * intros (rn & j & E & _ & _ & Hj & _). injection E as <-.
        rewrite Hsign in Hj. discriminate.
  - split; [right; right; right; reflexivity |].
    split; [| reflexivity]. intros _. exists room_name, jwt_string.
    split; [reflexivity |]. split; [reflexivity |]. split; [reflexivity |].
    split; [exact Hsign | reflexivity].
Qed.

(** ** Trimming, and what the room field lets through *)

Lemma string_rev_onto_twice (s acc acc' : string) :
  string_rev_onto (string_rev_onto s acc) acc'
  = string_rev_onto acc (s +:+ acc').
Proof.
  revert acc acc'. induction s as [| c s IH]; intros acc acc'; simpl.
  - reflexivity.
  - rewrite IH. reflexivity.
Qed.

Lemma string_app_nil_r (s : string) : s +:+ EmptyString = s.
Proof.
  induction s as [| c s IH]; [reflexivity |].
  change (String c (s +:+ EmptyString) = String c s). rewrite IH. reflexivity.
Qed.

Lemma string_app_assoc (a b c : string) : (a +:+ b) +:+ c = a +:+ (b +:+ c).
Proof.
  induction a as [| x a IH]; [reflexivity |].
  change (String x ((a +:+ b) +:+ c) = String x (a +:+ (b +:+ c))).
  rewrite IH. reflexivity.
Qed.

Lemma string_rev_involutive (s : string) : string_rev (string_rev s) = s.
Proof.
  unfold string_rev. rewrite string_rev_onto_twice. simpl.
  apply string_app_nil_r.
Qed.

Lemma string_forallb_rev_onto (p : ascii -> bool) (s acc : string) :
  string_forallb p (string_rev_onto s acc)
  = string_forallb p s && string_forallb p acc.
Proof.
  revert acc. induction s as [| c s IH]; intros acc; simpl.
  - reflexivity.
  - rewrite IH. simpl. destruct (p c), (string_forallb p s); reflexivity.
Qed.

Lemma string_forallb_rev (p : ascii -> bool) (s : string) :
  string_forallb p (string_rev s) = string_forallb p s.
Proof.
  unfold string_rev. rewrite string_forallb_rev_onto. simpl.
  apply andb_true_r.
Qed.

Lemma string_forallb_app (p : ascii -> bool) (s t : string) :
  string_forallb p (s +:+ t) = string_forallb p s && string_forallb p t.
Proof.
  induction s as [| c s IH]; simpl; [reflexivity |].
  rewrite IH. apply andb_assoc.
Qed.

Lemma string_forallb_impl (p q : ascii -> bool) (s : string) :
  (forall c, p c = true -> q c = true) ->
  string_forallb p s = true -> string_forallb q s = true.
Proof.
  intros Hpq. induction s as [| c s IH]; simpl; [reflexivity |].
  intros H. apply andb_true_iff in H. destruct H as [Hc Hs].
  rewrite (Hpq _ Hc), (IH Hs). reflexivity.
Qed.

Lemma slug_char_is_no_space (c : ascii) :
  serializers.slug_char c = true -> negb (isspace c) = true.
Proof.
  unfold serializers.slug_char, isspace. cbv zeta.
  generalize (N_of_ascii c). intros n H.
  apply negb_true_iff.
  repeat match goal with
         | H : (_ || _)%bool = true |- _ => apply orb_true_iff in H; destruct H
         | H : (_ && _)%bool = true |- _ => apply andb_true_iff in H; destruct H
         | H : (_ =? _)%N = true |- _ => apply N.eqb_eq in H
         | H : (_ <=? _)%N = true |- _ => apply N.leb_le in H
         end;
    repeat match goal with
           | |- (_ || _)%bool = false => apply orb_false_iff; split
           | |- (_ && _)%bool = false => apply andb_false_iff
           end;
    try (apply N.eqb_neq; lia);
    try (left; apply N.leb_gt; lia); try (right; apply N.leb_gt; lia).
Qed.

Lemma slug_char_is_not_null (c : ascii) :
  serializers.slug_char c = true -> negb (N_of_ascii c =? 0)%N = true.
Proof.
  unfold serializers.slug_char. cbv zeta.
  generalize (N_of_ascii c). intros n H. apply negb_true_iff, N.eqb_neq.
  repeat match goal with
         | H : (_ || _)%bool = true |- _ => apply orb_true_iff in H; destruct H
         | H : (_ && _)%bool = true |- _ => apply andb_true_iff in H; destruct H
         | H : (_ =? _)%N = true |- _ => apply N.eqb_eq in H
         | H : (_ <=? _)%N = true |- _ => apply N.leb_le in H
         end; lia.
Qed.

Lemma lstrip_no_space (s : string) :
  string_forallb (fun c => negb (isspace c)) s = true -> lstrip s = s.
Proof.
  destruct s as [| c s]; simpl; [reflexivity |].
  intros H. apply andb_true_iff in H. destruct H as [Hc _].
  apply negb_true_iff in Hc. rewrite Hc. reflexivity.
Qed.

(** A string without whitespace is what [strip] leaves it. *)
Lemma strip_no_space (s : string) :
  string_forallb (fun c => negb (isspace c)) s = true -> strip s = s.
Proof.
  intros H. unfold strip, rstrip. rewrite (lstrip_no_space s H).
  rewrite lstrip_no_space; [apply string_rev_involutive |].
  rewrite string_forallb_rev. exact H.
Qed.

Lemma lstrip_all_space (s : string) :
  string_forallb isspace s = true -> lstrip s = EmptyString.
Proof.
  induction s as [| c s IH]; simpl; [reflexivity |].
  intros H. apply andb_true_iff in H. destruct H as [Hc Hs].
  rewrite Hc. exact (IH Hs).
Qed.

(** A string of nothing but whitespace is blank to [strip]. *)
Lemma strip_all_space (s : string) :
  string_forallb isspace s = true -> strip s = EmptyString.
Proof.
  intros H. unfold strip. rewrite (lstrip_all_space s H). reflexivity.
Qed.

Lemma truthy_iff (s : string) : truthy s = true <-> s <> EmptyString.
Proof. destruct s; simpl; split; congruence. Qed.

Lemma string_rev_onto_app (s acc : string) :
  string_rev_onto s acc = string_rev s +:+ acc.
Proof.
  unfold string_rev. revert acc.
  induction s as [| c s IH]; intros acc; simpl; [reflexivity |].
  rewrite (IH (String c acc)), (IH (String c EmptyString)).
  rewrite string_app_assoc. reflexivity.
Qed.

Lemma string_rev_app (a b : string) :
  string_rev (a +:+ b) = string_rev b +:+ string_rev a.
Proof.
  rewrite <- string_rev_onto_app. unfold string_rev.
  generalize EmptyString.
  induction a as [| c a IH]; intros acc; simpl; [reflexivity |].
  apply IH.
Qed.

Lemma string_rev_empty (s : string) :
  string_rev s = EmptyString -> s = EmptyString.
Proof.
  intros H. rewrite <- (string_rev_involutive s), H. reflexivity.
Qed.

(** [lstrip] takes a run of whitespace off the front, up to the first
    character that is none. *)
Lemma lstrip_split (s : string) :
  exists l, s = l +:+ lstrip s /\ string_forallb isspace l = true.
Proof.
  induction s as [| c s IH]; simpl.
  - exists EmptyString. split; reflexivity.
  - destruct (isspace c) eqn:Hc.
    + destruct IH as (l & E & Hl). exists (String c l). simpl.
      rewrite Hc, Hl. split; [| reflexivity].
      change (String c s = String c (l +:+ lstrip s)). f_equal. exact E.
    + exists EmptyString. split; reflexivity.
Qed.

Lemma lstrip_head (s : string) (c : ascii) (rest : string) :
  lstrip s = String c rest -> isspace c = false.
Proof.
  induction s as [| a s IH]; simpl; [discriminate |].
  destruct (isspace a) eqn:Ha; [exact IH |].
  intros E. injection E as <- _. exact Ha.
Qed.

Lemma lstrip_empty (s : string) :
  lstrip s = EmptyString -> string_forallb isspace s = true.
Proof.
  induction s as [| c s IH]; simpl; [reflexivity |].
  destruct (isspace c); [exact IH | discriminate].
Qed.

(** [strip] leaves nothing exactly of the strings of whitespace. *)
Lemma strip_empty_iff (s : string) :
  strip s = EmptyString <-> string_forallb isspace s = true.
Proof.
  split; [| apply strip_all_space].
  unfold strip, rstrip. intros H.
  apply string_rev_empty, lstrip_empty in H.
  rewrite string_forallb_rev in H.
  destruct (lstrip_split s) as (l & E & Hl).
  rewrite E, string_forallb_app, Hl, H. reflexivity.
Qed.

(** What [strip] takes off is whitespace at the two ends. *)
Lemma strip_split (s : string) :
  exists l r, s = l +:+ strip s +:+ r
              /\ string_forallb isspace l = true
              /\ string_forallb isspace r = true.
Proof.
  destruct (lstrip_split s) as (l & E & Hl).
  destruct (lstrip_split (string_rev (lstrip s))) as (r & E' & Hr).
  apply (f_equal string_rev) in E'.
  rewrite string_rev_involutive, string_rev_app in E'.
  exists l, (string_rev r). split; [| split].
  - unfold strip, rstrip. rewrite <- E'. exact E.
  - exact Hl.
  - rewrite string_forallb_rev. exact Hr.
Qed.

Lemma strip_head (s : string) (c : ascii) (rest : string) :
  strip s = String c rest -> isspace c = false.
Proof.
  unfold strip, rstrip. intros H.
  destruct (lstrip_split (string_rev (lstrip s))) as (r & E' & _).
  apply (f_equal string_rev) in E'.
  rewrite string_rev_involutive, string_rev_app, H in E'. simpl in E'.
  exact (lstrip_head _ _ _ E').
Qed.

Lemma strip_last (s front : string) (c : ascii) :
  strip s = front +:+ String c EmptyString -> isspace c = false.
Proof.
  unfold strip, rstrip. intros H.
  apply (f_equal string_rev) in H.
  rewrite string_rev_involutive, string_rev_app in H.
  exact (lstrip_head _ _ _ H).
Qed.

Lemma room_exists_iff (db : Db.t) (value : string) :
  serializers.TokenRequestSerializer.room_exists db value = true
  <-> exists r, r ∈ Db.rooms db /\ Room.is_active r = true
                /\ Room.name r = value.
Proof.
  split; [apply room_exists_names |].
  intros (r & Hin & Hact & Hname).
  unfold serializers.TokenRequestSerializer.room_exists.
  apply List.existsb_exists. exists r.
  rewrite <- list_elem_of_In. split; [exact Hin |].
  rewrite Hname, Hact, String.eqb_refl. reflexivity.
Qed.

(** What the three validators of the slug field say together. *)
Lemma slug_validators_pass_iff (value : string) :
  (serializers.MaxLengthValidator 100 value
   ++ serializers.ProhibitNullCharactersValidator value
   ++ serializers.SlugValidator value ++ [])%list = []
  <-> is_slug value /\ len value <= 100.
Proof.
  unfold serializers.MaxLengthValidator,
    serializers.ProhibitNullCharactersValidator, serializers.SlugValidator,
    serializers.has_null_char, is_slug.
  destruct (Z.gtb_spec (len value) 100) as [Hlong | Hshort]; simpl.
  { split; [discriminate | intros [_ ?]; lia]. }
  destruct (truthy value) eqn:Ht; simpl.
  2:{ split.
      - destruct (negb _); discriminate.
      - intros [[Hne _] _]. apply truthy_iff in Hne. congruence. }
  destruct (string_forallb serializers.slug_char value) eqn:Hslug; simpl.
  - rewrite (string_forallb_impl _ _ value slug_char_is_not_null Hslug).
    simpl. apply truthy_iff in Ht. tauto.
  - split.
    + destruct (negb _); discriminate.
    + intros [[_ ?] _]. discriminate.
Qed.

Lemma is_valid_iff (db : Db.t) (data_room : option string)
  (room_name : string) :
  serializers.TokenRequestSerializer.is_valid db data_room = inr room_name
  <-> exists s,
        data_room = Some s /\ room_name = strip s
        /\ is_slug room_name /\ len room_name <= 100
        /\ exists r, r ∈ Db.rooms db /\ Room.is_active r = true
                     /\ Room.name r = room_name.
Proof.
  unfold serializers.TokenRequestSerializer.is_valid, serializers.SlugField,
    serializers.CharField_run_validation,
    serializers.TokenRequestSerializer.validate_room.
  destruct data_room as [s |].
  2:{ split; [discriminate | intros (s & E & _); discriminate]. }
  cbn [List.map List.concat andb].
  pose proof (slug_validators_pass_iff (strip s)) as Hslug.
  destruct (truthy s) eqn:Hs; simpl.
  2:{ split; [discriminate |]. intros (s' & E & -> & [Hne _] & _).
      exfalso. injection E as <-. destruct s; [| discriminate].
      apply Hne. reflexivity. }
  destruct (truthy (strip s)) eqn:Hstrip; simpl.
  2:{ split; [discriminate |]. intros (s' & E & -> & [Hne _] & _).
      exfalso. injection E as <-. apply truthy_iff in Hne. congruence. }
  destruct (_ ++ _)%list as [| msg msgs].
  - destruct (serializers.TokenRequestSerializer.room_exists db (strip s))
      eqn:Hex; simpl.
    + split.
      * intros E. injection E as <-. exists s.
        destruct (proj1 Hslug eq_refl) as [Hsl Hlen].
        apply room_exists_iff in Hex. auto.
      * intros (s' & E & -> & _). injection E as <-. reflexivity.
    + split; [discriminate |].
      intros (s' & E & -> & _ & _ & Hr). exfalso. injection E as <-.
      apply room_exists_iff in Hr. congruence.
  - split; [discriminate |].
    intros (s' & E & -> & Hsl & Hlen & _). exfalso. injection E as <-.
    discriminate (proj2 Hslug (conj Hsl Hlen)).
Qed.

Lemma is_valid_slug (db : Db.t) (data_room : option string)
  (room_name : string) :
  serializers.TokenRequestSerializer.is_valid db data_room = inr room_name ->
  is_slug room_name /\ len room_name <= 100.
Proof.
  unfold serializers.TokenRequestSerializer.is_valid, serializers.SlugField,
    serializers.CharField_run_validation,
    serializers.TokenRequestSerializer.validate_room.
  destruct data_room as [s |]; [| discriminate].
  cbn [List.map List.concat].
  pose proof (slug_validators_pass_iff (strip s)) as Hslug.
  destruct (_ || _); [discriminate |].
  destruct (_ ++ _)%list as [| msg msgs]; [| discriminate].
  destruct (serializers.TokenRequestSerializer.room_exists db (strip s));
    simpl; [| discriminate].
  intros E. injection E as <-. apply Hslug. reflexivity.
Qed.

Lemma slug_is_trimmed (s : string) : is_slug s -> strip s = s.
Proof.
  intros [_ H]. apply strip_no_space.
  exact (string_forallb_impl _ _ s slug_char_is_no_space H).
Qed.

(** X6.  The body of a token request is valid exactly when its [room],
    with the whitespace around it dropped, is a slug of at most 100
    characters that is the name of an active room; the validated value is
    that trimmed name.  In particular a slug of at most 100 characters
    that names an active room is accepted as it stands. *)
Theorem token_request_is_valid_iff (db : Db.t) :
  (forall data_room room_name,
     serializers.TokenRequestSerializer.is_valid db data_room = inr room_name
     <-> exists s,
           data_room = Some s /\ room_name = strip s
           /\ is_slug room_name /\ len room_name <= 100
           /\ exists r, r ∈ Db.rooms db /\ Room.is_active r = true
                        /\ Room.name r = room_name)
  /\ forall r,
       r ∈ Db.rooms db -> Room.is_active r = true ->
       is_slug (Room.name r) -> len (Room.name r) <= 100 ->
       serializers.TokenRequestSerializer.is_valid db (Some (Room.name r))
       = inr (Room.name r).
Proof.
  split; [intros data_room room_name; apply is_valid_iff |].
  intros r Hin Hact Hslug Hlen. apply is_valid_iff.
  exists (Room.name r). rewrite (slug_is_trimmed _ Hslug).
  split; [reflexivity |]. split; [reflexivity |]. split; [exact Hslug |].
  split; [exact Hlen |]. exists r. auto.
Qed.

Lemma token_request_is_valid_iff_witness :
  serializers.TokenRequestSerializer.is_valid sample.db (Some "math-101")
  = inr "math-101".
Proof.
  apply (proj2 (token_request_is_valid_iff sample.db) sample.math).
  - left.
  - reflexivity.
  - split; [discriminate | reflexivity].
  - vm_compute. discriminate.
Defined.

(** X7.  Whenever a media token is issued, there is an active room whose
    name is a slug, is the room of the grant that was signed and is the
    [room] of the response; the [is_teacher] of the response is the
    role test on the user, and is what the grant's publish right is. *)
Theorem issued_token_is_for_an_active_room (to_jwt : api.signer)
  (cfg : settings.t) (user : User.t) (data_room : option string)
  (db : Db.t) :
  Response.status (fst (views.get_livekit_token to_jwt cfg user data_room db))
  = status.HTTP_200_OK ->
  exists r g token,
    r ∈ Db.rooms db /\ Room.is_active r = true /\ is_slug (Room.name r)
    /\ data_room <> None
    /\ snd (views.get_livekit_token to_jwt cfg user data_room db) = [token]
    /\ api.grants token = Some g
    /\ api.room g = Room.name r
    /\ api.room_join g = true
    /\ api.can_publish g = User.is_teacher user
    /\ field "room"
         (Response.data
            (fst (views.get_livekit_token to_jwt cfg user data_room db)))
       = Some (JStr (Room.name r))
    /\ field "is_teacher"
         (Response.data
            (fst (views.get_livekit_token to_jwt cfg user data_room db)))
       = Some (JBool (User.is_teacher user)).
Proof.
  intros Hok. apply get_livekit_token_ok in Hok.
  destruct Hok as (room_name & jwt_string & Hvalid & _ & _ & ->).
  destruct (is_valid_slug _ _ _ Hvalid) as [Hslug _].
  apply is_valid_names in Hvalid. destruct Hvalid as (s & -> & _ & Hex).
  apply room_exists_names in Hex. destruct Hex as (r & Hin & Hact & Hname).
  exists r, (tokens.video_grants room_name (User.is_teacher user)),
    (built cfg room_name user).
  rewrite Hname. repeat split; try assumption; try reflexivity.
  - destruct Hslug as [Hne _]. exact Hne.
  - destruct Hslug as [_ H]. exact H.
  - discriminate.
Qed.

Lemma issued_token_is_for_an_active_room_witness :
  exists r,
    r ∈ Db.rooms sample.db /\ Room.is_active r = true
    /\ field "room"
         (Response.data
            (fst (views.get_livekit_token sample.to_jwt sample.cfg
                    sample.asha (Some "  math-101") sample.db)))
       = Some (JStr (Room.name r)).
Proof.
  destruct (issued_token_is_for_an_active_room sample.to_jwt sample.cfg
              sample.asha (Some "  math-101") sample.db eq_refl)
    as (r & g & token & Hin & Hact & _ & _ & _ & _ & _ & _ & _ & Hroom & _).
  exists r. auto.
Defined.

(** X8.  The display name that is signed is the user's full name
    whenever that is not empty, and the username otherwise.  The full name
    is first name, one space, last name with the whitespace at the two
    ends taken off: what is taken off is whitespace only, and what is left
    neither begins nor ends with whitespace.  It is empty exactly when
    first and last name hold nothing but whitespace.  So the signed name
    is empty only if the username is. *)
Theorem display_name_is_full_name_or_username (to_jwt : api.signer)
  (cfg : settings.t) (room_name : string) (user : User.t)
  (token : api.AccessToken) :
  token ∈ snd (tokens.generate_livekit_token to_jwt cfg room_name user) ->
  (User.get_full_name user <> EmptyString ->
   api.name token = Some (User.get_full_name user))
  /\ (User.get_full_name user = EmptyString ->
      api.name token = Some (User.username user))
  /\ (exists l r,
        untrimmed_full_name user = l +:+ User.get_full_name user +:+ r
        /\ string_forallb isspace l = true
        /\ string_forallb isspace r = true)
  /\ (forall c rest,
        User.get_full_name user = String c rest -> isspace c = false)
  /\ (forall front c,
        User.get_full_name user = front +:+ String c EmptyString ->
        isspace c = false)
  /\ (User.get_full_name user = EmptyString
      <-> string_forallb isspace (User.first_name user) = true
          /\ string_forallb isspace (User.last_name user) = true)
  /\ (api.name token = Some EmptyString -> User.username user = EmptyString).
Proof.
  intros Hin. apply generate_calls in Hin. subst token. simpl.
  unfold str_or.
  change (User.get_full_name user) with (strip (untrimmed_full_name user)).
  split; [| split; [| split; [| split; [| split; [| split]]]]].
  - intros Hne. apply truthy_iff in Hne. rewrite Hne. reflexivity.
  - intros ->. reflexivity.
  - apply strip_split.
  - apply strip_head.
  - apply strip_last.
  - rewrite strip_empty_iff. unfold untrimmed_full_name.
    rewrite !string_forallb_app. simpl.
    rewrite andb_true_iff. reflexivity.
  - destruct (truthy _) eqn:Ht; intros E; injection E as E.
    + rewrite E in Ht. discriminate.
    + exact E.
Qed.

Lemma display_name_is_full_name_or_username_witness :
  api.name (built sample.cfg "math-101" sample.asha) = Some "Asha Rao"
  /\ api.name (built sample.cfg "math-101" sample.bilal) = Some "bilal".
Proof.
  split.
  - apply (display_name_is_full_name_or_username sample.to_jwt sample.cfg
             "math-101" sample.asha).
    + vm_compute. left.
    + discriminate.
  - apply (display_name_is_full_name_or_username sample.to_jwt sample.cfg
             "math-101" sample.bilal).
    + vm_compute. left.
    + reflexivity.
Defined.

(** ** streaming/permissions.py *)

Lemma not_teacher_and_student (u : User.t) :
  User.is_teacher u && User.is_student u = false.
Proof.
  unfold User.is_teacher, User.is_student, UserRole.TEACHER, UserRole.STUDENT.
  destruct (String.eqb_spec (User.role u) "teacher") as [-> |]; reflexivity.
Qed.

(** X9.  No request passes both [IsTeacher] and [IsStudent]; a request
    without an authenticated user passes neither, and so does a user
    whose role is neither of the two. *)
Theorem teacher_and_student_permissions_exclude
  (request : permissions.Request) :
  permissions.IsTeacher.has_permission request
  && permissions.IsStudent.has_permission request = false
  /\ (permissions.user_and_authenticated request = false ->
      permissions.IsTeacher.has_permission request = false
      /\ permissions.IsStudent.has_permission request = false)
  /\ (forall u,
        permissions.user request = permissions.Authenticated u ->
        User.role u <> "teacher" -> User.role u <> "student" ->
        permissions.IsTeacher.has_permission request = false
        /\ permissions.IsStudent.has_permission request = false).
Proof.
  unfold permissions.IsTeacher.has_permission,
    permissions.IsStudent.has_permission, permissions.user_and_authenticated,
    permissions.user_attr.
  split; [| split].
  - destruct (permissions.user request) as [| | u]; simpl;
      [reflexivity | reflexivity | apply not_teacher_and_student].
  - intros ->. split; reflexivity.
  - intros u -> Ht Hs. simpl.
    unfold User.is_teacher, User.is_student, UserRole.TEACHER,
      UserRole.STUDENT.
    destruct (String.eqb_spec (User.role u) "teacher"); [contradiction |].
    destruct (String.eqb_spec (User.role u) "student"); [contradiction |].
    split; reflexivity.
Qed.

Lemma teacher_and_student_permissions_exclude_witness :
  permissions.IsTeacher.has_permission
    (permissions.mkRequest (permissions.Authenticated sample.carol) "POST")
  = false
  /\ permissions.IsStudent.has_permission
       (permissions.mkRequest (permissions.Authenticated sample.carol) "POST")
     = false.
Proof.
  apply (proj2 (proj2 (teacher_and_student_permissions_exclude
                         (permissions.mkRequest
                            (permissions.Authenticated sample.carol) "POST")))
               sample.carol eq_refl); discriminate.
Defined.

(** X10.  [IsTeacherOrReadOnly] lets nobody in without authentication;
    an authenticated user passes exactly when the method is GET, HEAD or
    OPTIONS or the user is a teacher.  The creation of a room answers 403
    exactly when the permission refuses the caller's POST. *)
Theorem teacher_or_read_only_gates_room_creation :
  (forall m,
     permissions.IsTeacherOrReadOnly.has_permission
       (permissions.mkRequest permissions.NoUser m) = false
     /\ permissions.IsTeacherOrReadOnly.has_permission
          (permissions.mkRequest permissions.AnonymousUser m) = false)
  /\ (forall u m,
        permissions.IsTeacherOrReadOnly.has_permission
          (permissions.mkRequest (permissions.Authenticated u) m) = true
        <-> m ∈ permissions.IsTeacherOrReadOnly.SAFE_METHODS
            \/ User.is_teacher u = true)
  /\ (forall rs u body db,
        Response.status (fst (views.RoomListCreateView.post rs u body db))
        = status.HTTP_403_FORBIDDEN
        <-> permissions.IsTeacherOrReadOnly.has_permission
              (permissions.mkRequest (permissions.Authenticated u) "POST")
            = false).
Proof.
  split; [| split].
  - intros m. split; reflexivity.
  - intros u m.
    unfold permissions.IsTeacherOrReadOnly.has_permission,
      permissions.user_and_authenticated, permissions.user_attr.
    cbn [permissions.user permissions.method negb].
    destruct (List.existsb _ _) eqn:Hsafe.
    + split; [| reflexivity]. intros _. left.
      apply List.existsb_exists in Hsafe. destruct Hsafe as (x & Hin & Hx).
      apply String.eqb_eq in Hx. subst x. apply list_elem_of_In. exact Hin.
    + split; [auto |]. intros [Hin | Ht]; [| exact Ht].
      exfalso. apply list_elem_of_In in Hin.
      assert (List.existsb (String.eqb m)
                permissions.IsTeacherOrReadOnly.SAFE_METHODS = true) as E.
      { apply List.existsb_exists. exists m. split; [exact Hin |].
        apply String.eqb_refl. }
      rewrite E in Hsafe. discriminate.
  - intros rs u body db. unfold views.RoomListCreateView.post.
    change (permissions.IsTeacherOrReadOnly.has_permission
              (permissions.mkRequest (permissions.Authenticated u) "POST"))
      with (User.is_teacher u).
    destruct (User.is_teacher u); simpl.
    + destruct (serializers.RoomSerializer.is_valid rs (Db.rooms db) body)
        as [errors | [[n d] a]]; simpl; split; discriminate.
    + split; reflexivity.
Qed.

(** X11.  [IsRoomHost] passes exactly an authenticated user whose id is
    the host of the room, whatever the user's role: nothing else than a
    room, and no room without host, lets anybody through, and two users
    that pass for one room are the same account. *)
Theorem room_host_is_one_account (request : permissions.Request)
  (obj : permissions.Obj) :
  (permissions.IsRoomHost.has_object_permission request obj = true
   <-> exists r u,
         obj = permissions.ObjRoom r
         /\ permissions.user request = permissions.Authenticated u
         /\ Room.host r = Some (User.id u))
  /\ forall r u1 u2 m1 m2,
       permissions.IsRoomHost.has_object_permission
         (permissions.mkRequest (permissions.Authenticated u1) m1)
         (permissions.ObjRoom r) = true ->
       permissions.IsRoomHost.has_object_permission
         (permissions.mkRequest (permissions.Authenticated u2) m2)
         (permissions.ObjRoom r) = true ->
       User.id u1 = User.id u2.
Proof.
  split.
  - unfold permissions.IsRoomHost.has_object_permission,
      permissions.IsRoomHost.host_eq, permissions.user_and_authenticated.
    destruct (permissions.user request) as [| | u] eqn:Hu; simpl.
    + split; [discriminate | intros (r & u & _ & E & _); discriminate].
    + split; [discriminate | intros (r & u & _ & E & _); discriminate].
    + destruct obj as [r |].
      * destruct (Room.host r) as [h |] eqn:Hh.
        -- split.
           ++ intros E. apply Z.eqb_eq in E. subst h. exists r, u. auto.
           ++ intros (r' & u' & Er & Eu & Eh). injection Er as <-.
              injection Eu as <-. rewrite Hh in Eh. injection Eh as ->.
              apply Z.eqb_refl.
        -- split; [discriminate |].
           intros (r' & u' & Er & _ & Eh). injection Er as <-.
           rewrite Hh in Eh. discriminate.
      * split; [discriminate | intros (r & u' & E & _); discriminate].
  - intros r u1 u2 m1 m2.
    unfold permissions.IsRoomHost.has_object_permission,
      permissions.IsRoomHost.host_eq. simpl.
    destruct (Room.host r) as [h |]; [| discriminate].
    intros E1 E2. apply Z.eqb_eq in E1, E2. congruence.
Qed.

Lemma room_host_is_one_account_witness :
  permissions.IsRoomHost.has_object_permission
    (permissions.mkRequest (permissions.Authenticated sample.asha) "DELETE")
    (permissions.ObjRoom sample.math)
  = true.
Proof.
  apply (proj1 (room_host_is_one_account
                  (permissions.mkRequest
                     (permissions.Authenticated sample.asha) "DELETE")
                  (permissions.ObjRoom sample.math))).
  exists sample.math, sample.asha. repeat split.
Defined.

(** ** The room endpoints of streaming/views.py *)

Lemma newer_first_transitive :
  Transitive views.RoomListCreateView.newer_first.
Proof.
  intros a b c. unfold views.RoomListCreateView.newer_first. lia.
Qed.

Lemma newer_first_total : Total views.RoomListCreateView.newer_first.
Proof.
  intros a b. unfold views.RoomListCreateView.newer_first. lia.
Qed.

Lemma get_queryset_elem (db : Db.t) (r : Room.t) :
  r ∈ views.RoomListCreateView.get_queryset db
  <-> r ∈ Db.rooms db /\ Room.is_active r = true.
Proof.
  unfold views.RoomListCreateView.get_queryset.
  rewrite merge_sort_Permutation.
  rewrite list_elem_of_In, filter_In, <- list_elem_of_In. reflexivity.
Qed.

(** X12.  The listing answers 200 and writes nothing.  Its rows are the
    active rooms, each as often as the table holds it and none that is
    not active, the most recently created first. *)
Theorem room_list_is_the_active_rooms_newest_first
  (rs : serializers.RoomSerializer.t) (user : User.t) (db : Db.t) :
  views.RoomListCreateView.get rs user db
  = (Response.mk
       (JList (List.map
                 (fun r => serializers.RoomSerializer.data rs r
                             (views.RoomListCreateView.host_of db r))
                 (views.RoomListCreateView.get_queryset db)))
       status.HTTP_200_OK, db)
  /\ views.RoomListCreateView.get_queryset db
     ≡ₚ List.filter Room.is_active (Db.rooms db)
  /\ StronglySorted (fun a b => Room.created_at b <= Room.created_at a)
                    (views.RoomListCreateView.get_queryset db)
  /\ forall r, r ∈ views.RoomListCreateView.get_queryset db
               <-> r ∈ Db.rooms db /\ Room.is_active r = true.
Proof.
  split; [reflexivity |]. split; [apply merge_sort_Permutation |].
  split; [| apply get_queryset_elem].
  apply (@StronglySorted_merge_sort _ views.RoomListCreateView.newer_first _
           newer_first_transitive newer_first_total).
Qed.

Lemma post_cases (rs : serializers.RoomSerializer.t) (user : User.t)
  (body : JSON) (db : Db.t) :
  (Response.status (fst (views.RoomListCreateView.post rs user body db))
   <> status.HTTP_201_CREATED
   /\ snd (views.RoomListCreateView.post rs user body db) = db)
  \/ exists name display_name is_active,
       User.is_teacher user = true
       /\ serializers.RoomSerializer.is_valid rs (Db.rooms db) body
          = inr (name, display_name, is_active)
       /\ views.RoomListCreateView.post rs user body db
          = let room :=
              Room.mk (Db.next_room_id db) name display_name
                      (Some (User.id user)) is_active (Db.now db) (Db.now db)
            in
            (Response.mk (serializers.RoomSerializer.data rs room (Some user))
                         status.HTTP_201_CREATED,
             Db.mk (Db.users db) (Db.rooms db ++ [room]) (Db.blacklisted db)
                   (Db.next_jti db) (Db.next_room_id db + 1) (Db.now db)).
Proof.
  unfold views.RoomListCreateView.post.
  destruct (User.is_teacher user); simpl.
  2:{ left. split; [discriminate | reflexivity]. }
  destruct (serializers.RoomSerializer.is_valid rs (Db.rooms db) body)
    as [errors | [[n d] a]]; simpl.
  - left. split; [discriminate | reflexivity].
  - right. exists n, d, a. auto.
Qed.

(** X13.  A room is created by a teacher only, and its host is the
    caller whatever the body says.  On 201 exactly one row was appended:
    it carries the validated name, display name and active flag, the
    caller's id as host and the current time as both timestamps; every
    other row and table is as before.  On any other answer nothing was
    written. *)
Theorem room_creation_appends_a_room_hosted_by_the_caller
  (rs : serializers.RoomSerializer.t) (user : User.t) (body : JSON)
  (db : Db.t) :
  let response := fst (views.RoomListCreateView.post rs user body db) in
  let db' := snd (views.RoomListCreateView.post rs user body db) in
  (Response.status response = status.HTTP_201_CREATED ->
   User.is_teacher user = true
   /\ exists room,
        Db.rooms db' = (Db.rooms db ++ [room])%list
        /\ Room.host room = Some (User.id user)
        /\ Room.id room = Db.next_room_id db
        /\ Room.created_at room = Db.now db
        /\ Room.updated_at room = Db.now db
        /\ serializers.RoomSerializer.is_valid rs (Db.rooms db) body
           = inr (Room.name room, Room.display_name room, Room.is_active room)
        /\ Response.data response
           = serializers.RoomSerializer.data rs room (Some user)
        /\ Db.users db' = Db.users db
        /\ Db.blacklisted db' = Db.blacklisted db
        /\ Db.now db' = Db.now db)
  /\ (Response.status response = status.HTTP_201_CREATED \/ db' = db).
Proof.
  intros response db'. subst response db'.
  destruct (post_cases rs user body db)
    as [[Hstatus ->] | (n & d & a & Ht & Hvalid & ->)].
  - split; [intros E; contradiction | right; reflexivity].
  - split; [| left; reflexivity]. intros _. split; [exact Ht |].
    eexists. cbn [fst snd Db.rooms Db.users Db.blacklisted Db.now].
    split; [reflexivity |]. simpl. rewrite Hvalid. repeat split.
Qed.

Lemma room_creation_appends_a_room_hosted_by_the_caller_witness :
  exists room,
    Db.rooms (snd (views.RoomListCreateView.post sample_rooms.serializer
                     sample.asha sample_rooms.physics_body sample.db))
    = [sample.math; room]
    /\ Room.host room = Some 1.
Proof.
  destruct (proj1 (room_creation_appends_a_room_hosted_by_the_caller
                     sample_rooms.serializer sample.asha
                     sample_rooms.physics_body sample.db) eq_refl)
    as (_ & room & Hrooms & Hhost & _).
  exists room. split; [exact Hrooms | exact Hhost].
Defined.

(** X14.  Creation and listing fit together: after a 201 the listing
    holds every room it held before, and the new room as well exactly
    when it was created active.  A student's attempt is answered 403 and
    the listing is what it was. *)
Theorem created_room_is_listed_when_active
  (rs : serializers.RoomSerializer.t) (user : User.t) (body : JSON)
  (db : Db.t) :
  let response := fst (views.RoomListCreateView.post rs user body db) in
  let db' := snd (views.RoomListCreateView.post rs user body db) in
  (Response.status response = status.HTTP_201_CREATED ->
   exists room,
     Room.host room = Some (User.id user)
     /\ forall r,
          r ∈ views.RoomListCreateView.get_queryset db'
          <-> r ∈ views.RoomListCreateView.get_queryset db
              \/ (r = room /\ Room.is_active room = true))
  /\ (User.is_teacher user = false ->
      Response.status response = status.HTTP_403_FORBIDDEN
      /\ views.RoomListCreateView.get_queryset db'
         = views.RoomListCreateView.get_queryset db).
Proof.
  intros response db'. subst response db'. split.
  - intros Hok.
    destruct (post_cases rs user body db)
      as [[Hstatus _] | (n & d & a & Ht & Hvalid & E)]; [contradiction |].
    rewrite E. cbv zeta.
    exists (Room.mk (Db.next_room_id db) n d (Some (User.id user)) a
                    (Db.now db) (Db.now db)).
    split; [reflexivity |].
    intros r. rewrite !get_queryset_elem.
    cbn [snd Db.rooms Room.is_active].
    rewrite elem_of_app, list_elem_of_singleton.
    split.
    + intros [[Hin | ->] Hact]; [left; auto | right; auto].
    + intros [[Hin Hact] | [-> Hact]]; auto.
  - intros Hnot. unfold views.RoomListCreateView.post. rewrite Hnot.
    split; reflexivity.
Qed.

Lemma created_room_is_listed_when_active_witness :
  exists room,
    Room.host room = Some 1
    /\ (Room.is_active room = true ->
        room ∈ views.RoomListCreateView.get_queryset
                 (snd (views.RoomListCreateView.post sample_rooms.serializer
                         sample.asha sample_rooms.physics_body sample.db))).
Proof.
  destruct (proj1 (created_room_is_listed_when_active
                     sample_rooms.serializer sample.asha
                     sample_rooms.physics_body sample.db) eq_refl)
    as (room & Hhost & Hlisted).
  exists room. split; [exact Hhost |].
  intros Hact. apply Hlisted. right. split; [reflexivity | exact Hact].
Defined.

(** ** Login: [LoginView] and [CustomTokenObtainPairSerializer] *)



Lemma django_authenticate_some (db : Db.t) (username password : string)
  (user : User.t) :
  serializers.CustomTokenObtainPairSerializer.django_authenticate
    db username password = Some user
  <-> Db.get_user_by_name db username = Some user
      /\ User.password user = password /\ User.is_active user = true.
Proof.
  unfold serializers.CustomTokenObtainPairSerializer.django_authenticate.
  destruct (Db.get_user_by_name db username) as [u |].
  2:{ split; [discriminate | intros [E _]; discriminate]. }
  destruct (String.eqb_spec (User.password u) password) as [Hp | Hp]; simpl.
  - destruct (User.is_active u) eqn:Ha.
    + split.
      * intros E. injection E as <-. auto.
      * intros [E _]. exact E.
    + split; [discriminate | intros (E & _ & Hact)].
      injection E as <-. congruence.
  - split; [discriminate | intros (E & Hpw & _)].
    injection E as <-. contradiction.
Qed.

(** The refresh and the access credential a login at [db] mints for
    [user]. *)
Lemma LoginView_cases
  (fields : serializers.CustomTokenObtainPairSerializer.Fields)
  (cfg : settings.t) (username password : option string) (db : Db.t) :
  (Response.status (fst (views.LoginView fields cfg username password db))
   <> status.HTTP_200_OK
   /\ snd (views.LoginView fields cfg username password db) = db)
  \/ exists u p user,
       fields username password = inr (u, p)
       /\ serializers.CustomTokenObtainPairSerializer.django_authenticate
            db u p = Some user
       /\ views.LoginView fields cfg username password db
          = let refresh :=
              jwt.mkPayload "refresh"
                (Db.now db + settings.REFRESH_TOKEN_LIFETIME) (Db.now db)
                (Db.next_jti db) (User.id user) (Some (User.role user))
                (Some (User.username user)) (Some (User.email user)) in
            let access :=
              jwt.mkPayload "access"
                (Db.now db + settings.ACCESS_TOKEN_LIFETIME) (Db.now db)
                (N.succ (Db.next_jti db)) (User.id user)
                (Some (User.role user)) (Some (User.username user))
                (Some (User.email user)) in
            (Response.mk
               (JObj [("refresh", JTok (simplejwt.encode cfg refresh));
                      ("access", JTok (simplejwt.encode cfg access));
                      ("role", JStr (User.role user));
                      ("username", JStr (User.username user))])
               status.HTTP_200_OK,
             Db.set_next_jti (N.succ (N.succ (Db.next_jti db))) db).
Proof.
  unfold views.LoginView.
  destruct (fields username password) as [errors | [u p]].
  { left. split; [discriminate | reflexivity]. }
  unfold serializers.CustomTokenObtainPairSerializer.validate. eff.
  destruct (serializers.CustomTokenObtainPairSerializer.django_authenticate
              db u p) as [user |] eqn:Hauth.
  - right. exists u, p, user. split; [reflexivity |].
    split; [exact Hauth |]. reflexivity.
  - left. split; [discriminate | reflexivity].
Qed.




(** X16.  A login that is not answered 200 writes nothing, so no
    credential was minted.  It is answered 401 with the one fixed body
    whenever the two fields passed and the account of that username is
    missing, inactive or has another password: the answer does not tell
    which. *)
Theorem failed_login_writes_nothing
  (fields : serializers.CustomTokenObtainPairSerializer.Fields)
  (cfg : settings.t) (username password : option string) (db : Db.t) :
  (Response.status (fst (views.LoginView fields cfg username password db))
   = status.HTTP_200_OK
   \/ snd (views.LoginView fields cfg username password db) = db)
  /\ forall u p,
       fields username password = inr (u, p) ->
       (forall user,
          Db.get_user_by_name db u = Some user ->
          User.password user <> p \/ User.is_active user = false) ->
       views.LoginView fields cfg username password db
       = (Response.mk
            (detail "No active account found with the given credentials")
            status.HTTP_401_UNAUTHORIZED, db).
Proof.
  split.
  - destruct (LoginView_cases fields cfg username password db)
      as [[_ ->] | (u & p & user & _ & _ & ->)]; [right | left]; reflexivity.
  - intros u p Hfields Hbad. unfold views.LoginView. rewrite Hfields.
    unfold serializers.CustomTokenObtainPairSerializer.validate. eff.
    destruct (serializers.CustomTokenObtainPairSerializer.django_authenticate
                db u p) as [user |] eqn:Hauth; [| reflexivity].
    exfalso. apply django_authenticate_some in Hauth.
    destruct Hauth as (Hfind & Hpw & Hact).
    destruct (Hbad user Hfind); congruence.
Qed.

Lemma failed_login_writes_nothing_witness :
  views.LoginView sample.login_fields sample.cfg (Some "bilal")
                  (Some "pw-asha") sample.db
  = (Response.mk
       (detail "No active account found with the given credentials") 401,
     sample.db).
Proof.
  apply (proj2 (failed_login_writes_nothing sample.login_fields sample.cfg
                  (Some "bilal") (Some "pw-asha") sample.db)
               "bilal" "pw-asha" eq_refl).
  intros user Hfind. vm_compute in Hfind. injection Hfind as <-.
  left. discriminate.
Defined.

(** X17.  The refresh credential a login hands out is one logout takes:
    as long as its fresh identifier is not on the blacklist, presenting
    it to logout at any time from the login on and within the next 604800
    seconds, by any caller, is answered 200, and the refresh endpoint
    refuses it afterwards. *)
Theorem login_then_logout
  (fields : serializers.CustomTokenObtainPairSerializer.Fields)
  (cfg : settings.t) (username password : option string) (caller : User.t)
  (db : Db.t) (t : Z) :
  (Db.next_jti db ∉ Db.blacklisted db) ->
  Response.status (fst (views.LoginView fields cfg username password db))
  = status.HTTP_200_OK ->
  Db.now db <= t < Db.now db + 604800 ->
  exists refresh,
    field "refresh"
      (Response.data (fst (views.LoginView fields cfg username password db)))
    = Some (JTok refresh)
    /\ let db1 :=
         Db.set_now t
           (snd (views.LoginView fields cfg username password db)) in
       Response.status
         (fst (views.logout_view cfg caller (Some refresh) db1))
       = status.HTTP_200_OK
       /\ fst (views.refresh_token_view cfg (Some refresh)
                 (snd (views.logout_view cfg caller (Some refresh) db1)))
          = INVALID_CREDENTIAL.
Proof.
  intros Hfresh Hok Ht.
  destruct (LoginView_cases fields cfg username password db)
    as [[Hstatus _] | (u & p & user & _ & _ & E)]; [contradiction |].
  rewrite E. cbv zeta. cbn [fst snd Response.data].
  set (refresh :=
         jwt.mkPayload "refresh" (Db.now db + settings.REFRESH_TOKEN_LIFETIME)
           (Db.now db) (Db.next_jti db) (User.id user)
           (Some (User.role user)) (Some (User.username user))
           (Some (User.email user))).
  set (db1 :=
         Db.set_now t
           (Db.set_next_jti (N.succ (N.succ (Db.next_jti db))) db)).
  exists (simplejwt.encode cfg refresh). split; [reflexivity |].
  assert (valid_refresh cfg db1 (simplejwt.encode cfg refresh) refresh)
    as Hvalid.
  { apply valid_refresh_iff. unfold refresh_conditions, simplejwt.encode.
    simpl. unfold settings.REFRESH_TOKEN_LIFETIME.
    repeat split; [lia | exact Hfresh | lia]. }
  rewrite (logout_view_valid _ _ _ _ _ Hvalid). cbn [fst snd].
  split; [reflexivity |].
  apply valid_refresh_iff in Hvalid. destruct Hvalid as (Hr & _).
  destruct (blacklisted_rejected cfg
              (Db.set_blacklisted
                 ({[jwt.jti refresh]} ∪ Db.blacklisted db1) db1)
              _ _ Hr) as (e & He).
  { simpl. apply elem_of_union_l, elem_of_singleton. reflexivity. }
  rewrite (refresh_token_view_rejects cfg _ (simplejwt.encode cfg refresh) e
             eq_refl He).
  reflexivity.
Qed.

Lemma login_then_logout_witness :
  exists refresh,
    Response.status
      (fst (views.logout_view sample.cfg sample.asha (Some refresh)
              (Db.set_now 500000
                 (snd (views.LoginView sample.login_fields sample.cfg
                         (Some "bilal") (Some "pw-bilal") sample.db)))))
    = 200.
Proof.
  destruct (login_then_logout sample.login_fields sample.cfg (Some "bilal")
              (Some "pw-bilal") sample.asha sample.db 500000)
    as (refresh & _ & Hlogout & _).
  - apply not_elem_of_empty.
  - reflexivity.
  - simpl. lia.
  - exists refresh. exact Hlogout.
Defined.

(** X18.  The claims the login adds for the user interface decide
    nothing.  [get_token] mints what [for_user] mints with role, username
    and email of the row put in.  Whatever these three claims are set to
    afterwards, the credential is accepted or refused alike and stands for
    the same user: the row of the user table under the claimed id.  The
    profile and the token endpoint then answer by that row: the role
    shown, the flag returned and the publish right signed are those of
    the table, whatever role the credential claims. *)
Theorem custom_claims_are_not_trusted (to_jwt : api.signer)
  (cfg : settings.t) (key : string) (role username email : option string)
  (c : jwt.Payload) (data_room : option string) (db : Db.t) :
  (forall user, exists token db',
     simplejwt.for_user (simplejwt.ObjUser user) db = (inr token, db')
     /\ serializers.CustomTokenObtainPairSerializer.get_token user db
        = (inr (with_custom_claims (Some (User.role user))
                  (Some (User.username user)) (Some (User.email user))
                  token),
           db'))
  /\ fst (simplejwt.authenticate cfg
            (jwt.Compact key (with_custom_claims role username email c)) db)
     = fst (simplejwt.authenticate cfg (jwt.Compact key c) db)
  /\ forall u,
       fst (simplejwt.authenticate cfg
              (jwt.Compact key (with_custom_claims role username email c))
              db)
       = inr u ->
       Db.get_user db (jwt.user_id c) = Some u
       /\ field "role" (Response.data (fst (views.me_view u db)))
          = Some (JStr (User.role u))
       /\ (Response.status
             (fst (views.get_livekit_token to_jwt cfg u data_room db))
           = status.HTTP_200_OK ->
           field "is_teacher"
             (Response.data
                (fst (views.get_livekit_token to_jwt cfg u data_room db)))
           = Some (JBool (User.is_teacher u)))
       /\ forall token,
            token ∈ snd (views.get_livekit_token to_jwt cfg u data_room db)
            -> option_map api.can_publish (api.grants token)
               = Some (User.is_teacher u).
Proof.
  assert (fst (simplejwt.authenticate cfg
                 (jwt.Compact key (with_custom_claims role username email c))
                 db)
          = fst (simplejwt.authenticate cfg (jwt.Compact key c) db))
    as Hsame.
  { unfold simplejwt.authenticate, simplejwt.AccessToken, simplejwt.decode,
      simplejwt.check_exp, simplejwt.verify_token_type.
    eff; simpl.
    destruct (negb _); simpl; [reflexivity |].
    destruct (Db.now db <? jwt.iat c); simpl; [reflexivity |].
    destruct (jwt.exp c <=? Db.now db) eqn:He; simpl; [reflexivity |].
    rewrite He.
    destruct (String.eqb _ _); simpl; [| reflexivity].
    destruct (Db.get_user db (jwt.user_id c)) as [user |]; simpl;
      [| reflexivity].
    destruct (User.is_active user); reflexivity. }
  split; [| split; [exact Hsame |]].
  - intros user. eexists _, _. split; reflexivity.
  - intros u Hu. rewrite Hsame in Hu. apply authenticate_iff in Hu.
    destruct Hu as (_ & _ & _ & Hrow & _).
    split; [exact Hrow |]. split; [reflexivity |]. split.
    + intros Hok. apply get_livekit_token_ok in Hok.
      destruct Hok as (room_name & jwt_string & _ & _ & _ & ->).
      reflexivity.
    + intros token Hin. apply get_livekit_token_calls in Hin.
      destruct Hin as (room_name & _ & ->). reflexivity.
Qed.

Lemma custom_claims_are_not_trusted_witness :
  jwt.role sample_more.bilal_access_as_teacher = Some "teacher"
  /\ fst (simplejwt.authenticate sample.cfg
            (jwt.Compact "django-secret" sample_more.bilal_access_as_teacher)
            sample.db)
     = inr sample.bilal
  /\ User.role sample.bilal = "student"
  /\ forall token,
       token ∈ snd (views.get_livekit_token sample.to_jwt sample.cfg
                      sample.bilal (Some "math-101") sample.db)
       -> option_map api.can_publish (api.grants token) = Some false.
Proof.
  destruct (custom_claims_are_not_trusted sample.to_jwt sample.cfg
              "django-secret" (Some "teacher") (Some "asha")
              (Some "asha@example.org") sample.bilal_access_claims
              (Some "math-101") sample.db)
    as (_ & Hsame & Hrow).
  split; [reflexivity |].
  split; [exact (eq_trans Hsame eq_refl) |].
  split; [reflexivity |].
  destruct (Hrow sample.bilal (eq_trans Hsame eq_refl)) as (_ & _ & _ & Hgrant).
  exact Hgrant.
Defined.

(** ** Refusals of the refresh and logout endpoints *)

(** X19.  A credential that fails one of the checks, be it no JWT at
    all, signed with another key, dated after the clock, expired,
    blacklisted or not of type refresh, is refused by both endpoints and
    nothing is written: logout answers 400 "Invalid refresh token.",
    refresh answers 401.  A missing or empty credential is a 400 of its
    own in both. *)
Theorem refused_credential_writes_nothing (cfg : settings.t)
  (caller : User.t) (data : option jwt.Encoded) (db : Db.t) :
  (forall r,
     data = Some r -> jwt.truthy r = true ->
     (forall claims, ~ refresh_conditions cfg db r claims) ->
     views.logout_view cfg caller data db
     = (Response.mk (detail "Invalid refresh token.")
                    status.HTTP_400_BAD_REQUEST, db)
     /\ views.refresh_token_view cfg data db = (INVALID_CREDENTIAL, db))
  /\ (data = None \/ (exists r, data = Some r /\ jwt.truthy r = false) ->
      views.logout_view cfg caller data db
      = (Response.mk (detail "Refresh token is required to logout.")
                     status.HTTP_400_BAD_REQUEST, db)
      /\ views.refresh_token_view cfg data db
         = (Response.mk (detail "Refresh token is required.")
                        status.HTTP_400_BAD_REQUEST, db)).
Proof.
  split.
  - intros r -> Ht Hno.
    destruct (RefreshToken_cases cfg r db) as [(e & E & _) | (c & _ & Hc)].
    + rewrite (logout_view_rejects cfg caller db r e Ht E).
      rewrite (refresh_token_view_rejects cfg db r e Ht E).
      split; reflexivity.
    + destruct (Hno c Hc).
  - intros [-> | (r & -> & Ht)].
    + split; reflexivity.
    + unfold views.logout_view, views.refresh_token_view. rewrite Ht.
      split; reflexivity.
Qed.

Lemma refused_credential_writes_nothing_witness :
  views.logout_view sample.cfg sample.bilal (Some sample.bilal_access)
                    sample.db
  = (Response.mk (detail "Invalid refresh token.") 400, sample.db)
  /\ views.refresh_token_view sample.cfg
       (Some sample_more.bilal_refresh_expired) sample.db
     = (INVALID_CREDENTIAL, sample.db).
Proof.
  split.
  - apply (proj1 (refused_credential_writes_nothing sample.cfg sample.bilal
                    (Some sample.bilal_access) sample.db)
                 sample.bilal_access eq_refl eq_refl).
    intros claims (E & _ & _ & Htype & _). injection E as <-.
    discriminate.
  - apply (proj1 (refused_credential_writes_nothing sample.cfg sample.bilal
                    (Some sample_more.bilal_refresh_expired) sample.db)
                 sample_more.bilal_refresh_expired eq_refl eq_refl).
    intros claims (E & Hexp & _). injection E as <-. simpl in Hexp. lia.
Defined.

(** X20.  Revoking is done once.  After a valid credential was revoked,
    every later logout with it, by whoever and after whatever requests,
    is answered 400 "Invalid refresh token." and writes nothing. *)
Theorem second_logout_is_refused (env : system.Env) (caller caller' : User.t)
  (r : jwt.Encoded) (claims : jwt.Payload) (db db2 : Db.t) :
  valid_refresh (system.cfg env) db r claims ->
  system.later env
    (snd (views.logout_view (system.cfg env) caller (Some r) db)) db2 ->
  views.logout_view (system.cfg env) caller' (Some r) db2
  = (Response.mk (detail "Invalid refresh token.")
                 status.HTTP_400_BAD_REQUEST, db2).
Proof.
  intros Hvalid Hlater.
  rewrite (logout_view_valid _ _ _ _ _ Hvalid) in Hlater.
  apply later_blacklist in Hlater. simpl in Hlater.
  apply valid_refresh_iff in Hvalid. destruct Hvalid as (Hr & _).
  destruct (blacklisted_rejected (system.cfg env) db2 r claims Hr)
    as (e & He).
  { apply Hlater, elem_of_union_l, elem_of_singleton. reflexivity. }
  apply (logout_view_rejects _ _ _ _ e); [| exact He].
  rewrite Hr. reflexivity.
Qed.

Lemma second_logout_is_refused_witness :
  let db1 :=
    snd (views.logout_view sample.cfg sample.bilal (Some sample.bilal_refresh)
           sample.db) in
  views.logout_view sample.cfg sample.bilal (Some sample.bilal_refresh) db1
  = (Response.mk (detail "Invalid refresh token.") 400, db1).
Proof.
  apply (second_logout_is_refused sample.env sample.bilal sample.bilal
           sample.bilal_refresh sample.bilal_refresh_claims sample.db).
  - reflexivity.
  - apply rtc_refl.
Defined.

(** ** Which endpoint writes what *)

(** X21.  One request changes the room table only by appending one room,
    and only when it is a teacher's creation; it changes the blacklist
    only by adding the identifier of a valid refresh credential, and only
    when that credential was presented to the refresh or the logout
    endpoint.  Login, profile, listing and the token endpoint leave both
    alone. *)
Theorem endpoints_write_rooms_and_blacklist_only_so (env : system.Env)
  (c : system.Call) (db : Db.t) :
  let db' := snd (system.handle env c db) in
  (Db.rooms db' = Db.rooms db
   \/ exists user body room,
        c = system.RoomCreate user body /\ User.is_teacher user = true
        /\ Db.rooms db' = (Db.rooms db ++ [room])%list
        /\ Room.host room = Some (User.id user))
  /\ (Db.blacklisted db' = Db.blacklisted db
      \/ exists r claims,
           (c = system.Refresh (Some r)
            \/ exists user, c = system.Logout user (Some r))
           /\ valid_refresh (system.cfg env) db r claims
           /\ Db.blacklisted db' = {[jwt.jti claims]} ∪ Db.blacklisted db).
Proof.
  intros db'. subst db'. destruct c; simpl.
  - destruct (LoginView_cases (system.login_fields env) (system.cfg env)
                username password db)
      as [[_ ->] | (u & p & user & _ & _ & ->)]; split; left; reflexivity.
  - split.
    + left.
      destruct (refresh_token_view_frame (system.cfg env) data_refresh db)
        as [[-> _] | (r & cl & -> & Hv)]; [reflexivity |].
      rewrite (refresh_token_view_valid _ _ _ _ Hv). reflexivity.
    + destruct (refresh_token_view_frame (system.cfg env) data_refresh db)
        as [[-> _] | (r & cl & -> & Hv)]; [left; reflexivity |].
      right. exists r, cl. split; [left; reflexivity |].
      split; [exact Hv |].
      rewrite (refresh_token_view_valid _ _ _ _ Hv). reflexivity.
  - split.
    + left.
      destruct (logout_view_frame (system.cfg env) user data_refresh db)
        as [-> | (r & cl & -> & Hv)]; [reflexivity |].
      rewrite (logout_view_valid _ _ _ _ _ Hv). reflexivity.
    + destruct (logout_view_frame (system.cfg env) user data_refresh db)
        as [-> | (r & cl & -> & Hv)]; [left; reflexivity |].
      right. exists r, cl. split; [right; exists user; reflexivity |].
      split; [exact Hv |].
      rewrite (logout_view_valid _ _ _ _ _ Hv). reflexivity.
  - split; left; reflexivity.
  - split; left; reflexivity.
  - destruct (post_cases (system.rooms_serializer env) user body db)
      as [[_ ->] | (n & d & a & Ht & _ & ->)].
    + split; left; reflexivity.
    + split; [right | left; reflexivity].
      eexists user, body, _. split; [reflexivity |].
      split; [exact Ht |]. split; reflexivity.
  - split; left; reflexivity.
Qed.

(** ** core/settings.py: the comma-separated variables *)

Lemma split_not_nil (sep : ascii) (s : string) : split sep s <> [].
Proof.
  destruct s as [| c s]; simpl; [discriminate |].
  destruct (Ascii.eqb c sep); [discriminate |].
  destruct (split sep s); discriminate.
Qed.

Lemma join_cons (sep x : string) (l : list string) :
  l <> [] -> join sep (x :: l) = x +:+ sep +:+ join sep l.
Proof. destruct l; [contradiction | reflexivity]. Qed.

Lemma join_split (sep : ascii) (s : string) :
  join (String sep EmptyString) (split sep s) = s.
Proof.
  induction s as [| c s IH]; [reflexivity |].
  simpl. destruct (Ascii.eqb_spec c sep) as [-> | Hne].
  - rewrite join_cons by apply split_not_nil. rewrite IH. reflexivity.
  - pose proof (split_not_nil sep s) as Hnil.
    destruct (split sep s) as [| piece pieces]; [contradiction |].
    destruct pieces as [| piece' pieces].
    + simpl in *. rewrite IH. reflexivity.
    + rewrite join_cons in IH by discriminate.
      rewrite join_cons by discriminate.
      change (String c (piece +:+ String sep EmptyString
                        +:+ join (String sep EmptyString) (piece' :: pieces))
              = String c s).
      rewrite IH. reflexivity.
Qed.

Lemma split_pieces_without_sep (sep : ascii) (s : string) :
  Forall (fun piece =>
            string_forallb (fun c => negb (Ascii.eqb c sep)) piece = true)
         (split sep s).
Proof.
  induction s as [| c s IH]; simpl.
  - constructor; [reflexivity | constructor].
  - destruct (Ascii.eqb c sep) eqn:Hc.
    + constructor; [reflexivity | exact IH].
    + pose proof (split_not_nil sep s) as Hnil.
      destruct (split sep s) as [| piece pieces]; [contradiction |].
      inversion IH as [| ? ? Hpiece Hpieces]; subst.
      constructor; [| exact Hpieces]. simpl. rewrite Hc, Hpiece. reflexivity.
Qed.

(** X22.  [ALLOWED_HOSTS] and [CORS_ALLOWED_ORIGINS] are the pieces
    between the commas of their variable, or of the default when it is
    unset, taken as written: joined with commas they give the variable
    back, no piece holds a comma, and there is always at least one piece,
    the empty one for an empty variable. *)
Theorem comma_separated_settings_are_verbatim (e : environ.t) :
  join "," (environ.ALLOWED_HOSTS e)
  = environ.getenv e "ALLOWED_HOSTS" "localhost,127.0.0.1"
  /\ join "," (environ.CORS_ALLOWED_ORIGINS e)
     = environ.getenv e "CORS_ALLOWED_ORIGINS"
         "http://localhost:5173,http://127.0.0.1:5173"
  /\ Forall (fun host => string_forallb
                           (fun c => negb (Ascii.eqb c environ.comma)) host
                         = true)
            (environ.ALLOWED_HOSTS e ++ environ.CORS_ALLOWED_ORIGINS e)
  /\ (1 <= length (environ.ALLOWED_HOSTS e))%nat
  /\ (e "ALLOWED_HOSTS" = None ->
      environ.ALLOWED_HOSTS e = ["localhost"; "127.0.0.1"])
  /\ (e "ALLOWED_HOSTS" = Some EmptyString ->
      environ.ALLOWED_HOSTS e = [EmptyString]).
Proof.
  unfold environ.ALLOWED_HOSTS, environ.CORS_ALLOWED_ORIGINS.
  split; [apply (join_split environ.comma) |].
  split; [apply (join_split environ.comma) |].
  split; [apply Forall_app; split; apply split_pieces_without_sep |].
  split.
  - pose proof (split_not_nil environ.comma
                  (environ.getenv e "ALLOWED_HOSTS" "localhost,127.0.0.1")).
    destruct (split _ _); [contradiction | simpl; lia].
  - unfold environ.getenv. split; intros ->; reflexivity.
Qed.

Lemma comma_separated_settings_are_verbatim_witness :
  environ.ALLOWED_HOSTS sample_more.environ_hosts
  = ["api.example.org"; " example.org"]
  /\ join "," (environ.ALLOWED_HOSTS sample_more.environ_hosts)
     = "api.example.org, example.org".
Proof.
  split; [reflexivity |].
  rewrite (proj1 (comma_separated_settings_are_verbatim
                    sample_more.environ_hosts)).
  reflexivity.
Defined.

(** ** The profile endpoint *)


